(** * Molecule graph featurizers of deepchem

    A shallow embedding of
    [deepchem/feat/molecule_featurizers/mol_graph_conv_featurizer.py]:
    the sparse bond-graph featurizer [MolGraphConvFeaturizer] and the
    all-pairs, path-aware featurizer [PAGTNFeaturizer].

    The RDKit molecule is a record of the queries the featurizers make.
    Python exceptions are values of [exn]; a call that may raise returns a
    [result].  The molecule is a mutable object (computing Gasteiger charges
    annotates its atoms), so [MolGraphConvFeaturizer._featurize] threads it
    through a state monad. *)

From Stdlib Require Import ZArith Lia.
From stdpp Require Import base option list gmap strings.

Local Open Scope string_scope.
Local Open Scope list_scope.

(** ** Python values and exceptions *)

Inductive exn :=
| ImportError
| ModuleNotFoundError
| KeyError
| NameError
| TypeError
| AttributeError
| IndexError
| RuntimeError
| ValueError.

Inductive result (A : Type) :=
| Ok (a : A)
| Raise (e : exn).

Arguments Ok {A} a.
Arguments Raise {A} e.

Definition result_bind {A B} (r : result A) (k : A -> result B) : result B :=
  match r with
  | Ok a => k a
  | Raise e => Raise e
  end.

Definition is_Ok {A} (r : result A) : bool :=
  match r with Ok _ => true | Raise _ => false end.

(** The featurizers never compute with floating point numbers: they build
    them by conversion ([float(n)], [float(s)], a bool stored in a float
    array) and store them.  A float is therefore kept as the value it was
    converted from. *)
Inductive pyfloat :=
| float_of_int (z : Z)
| float_of_str (s : string).

Definition float_of_bool (b : bool) : pyfloat :=
  float_of_int (if b then 1 else 0).

(** [np.zeros(n)] *)
Definition np_zeros (n : nat) : list pyfloat := replicate n (float_of_int 0).

(** ** The RDKit molecule, as far as the featurizers query it *)

Record RDKitAtom := mkAtom {
  GetIdx : nat;
  GetSymbol : string;
  GetFormalCharge : Z;
  GetHybridization : string;
  GetIsAromatic : bool;
  GetTotalDegree : nat;
  GetTotalNumHs : nat;
  (* string properties set on the atom: [_CIPCode], [_GasteigerCharge] *)
  atom_props : gmap string string
}.

Record RDKitBond := mkBond {
  GetBeginAtomIdx : nat;
  GetEndAtomIdx : nat;
  GetBondType : string;
  IsInRing : bool;
  GetIsConjugated : bool;
  GetStereo : string
}.

Record RDKitMol := mkMol {
  GetAtoms : list RDKitAtom;
  GetBonds : list RDKitBond
}.

Definition GetNumAtoms (mol : RDKitMol) : nat := length (GetAtoms mol).

(** [mol.GetAtomWithIdx(i)]: RDKit raises on an index outside the molecule. *)
Definition GetAtomWithIdx (mol : RDKitMol) (i : nat) : result RDKitAtom :=
  match GetAtoms mol !! i with
  | Some a => Ok a
  | None => Raise RuntimeError
  end.

(** [atom.GetProp(name)]: a [KeyError] when the property is not set. *)
Definition GetProp (atom : RDKitAtom) (name : string) : result string :=
  match atom_props atom !! name with
  | Some v => Ok v
  | None => Raise KeyError
  end.

Definition SetProp (name value : string) (atom : RDKitAtom) : RDKitAtom :=
  mkAtom (GetIdx atom) (GetSymbol atom) (GetFormalCharge atom)
         (GetHybridization atom) (GetIsAromatic atom) (GetTotalDegree atom)
         (GetTotalNumHs atom) (<[name := value]> (atom_props atom)).

(** [mol.GetBondBetweenAtoms(a, b)]: the bond joining the two atoms, in
    either direction, or [None]. *)
Definition GetBondBetweenAtoms (mol : RDKitMol) (a b : nat) : option RDKitBond :=
  List.find
    (fun bond =>
       (Nat.eqb (GetBeginAtomIdx bond) a && Nat.eqb (GetEndAtomIdx bond) b)
       || (Nat.eqb (GetBeginAtomIdx bond) b && Nat.eqb (GetEndAtomIdx bond) a))
    (GetBonds mol).

(** ** The graph container *)

(** [deepchem.feat.graph_data.GraphData], as the triple it stores.  The
    sparse featurizer passes a matrix of node features (a list of rows);
    [GraphData_init] below is the constructor with the checks it makes on
    what it is given. *)
Record GraphData (N : Type) := mkGraphData {
  node_features : N;
  edge_index : list (list nat);
  edge_features : option (list (list pyfloat))
}.

Arguments mkGraphData {N} _ _ _.
Arguments node_features {N} _.
Arguments edge_index {N} _.
Arguments edge_features {N} _.

(** ** Effects: a mutable molecule, a call log, exceptions *)

(** What the featurizer does to the world outside its return value, in
    order: a run of [AllChem.ComputeGasteigerCharges] over the molecule, and
    each call of [_construct_atom_feature] (with the atom's index). *)
Inductive event :=
| ComputeGasteigerCharges_called
| construct_atom_feature_called (idx : nat).

Record world := mkWorld {
  w_mol : RDKitMol;
  w_trace : list event
}.

(** A computation that may raise and may change the world; the world
    survives an exception, as Python's heap does. *)
Definition M (A : Type) : Type := world -> result A * world.

Definition ret {A} (a : A) : M A := fun w => (Ok a, w).

Definition raise {A} (e : exn) : M A := fun w => (Raise e, w).

Definition bind {A B} (c : M A) (k : A -> M B) : M B :=
  fun w =>
    match c w with
    | (Ok a, w') => k a w'
    | (Raise e, w') => (Raise e, w')
    end.

Definition lift {A} (r : result A) : M A := fun w => (r, w).

Definition get_mol : M RDKitMol := fun w => (Ok (w_mol w), w).

Definition set_mol (mol : RDKitMol) : M unit :=
  fun w => (Ok tt, mkWorld mol (w_trace w)).

Definition log (e : event) : M unit :=
  fun w => (Ok tt, mkWorld (w_mol w) (w_trace w ++ [e])).

(** [try: c  except <handled by h>: ...]; the handler re-raises what it
    does not catch. *)
Definition try_except {A} (c : M A) (h : exn -> M A) : M A :=
  fun w =>
    match c w with
    | (Ok a, w') => (Ok a, w')
    | (Raise e, w') => h e w'
    end.

Declare Scope M_scope.
Delimit Scope M_scope with M.
Notation "x <- c ;; k" := (bind c (fun x => k))
  (at level 100, c at next level, right associativity) : M_scope.
Notation "c ;; k" := (bind c (fun _ => k))
  (at level 100, right associativity) : M_scope.

Declare Scope result_scope.
Delimit Scope result_scope with res.
Notation "x <- c ;; k" := (result_bind c (fun x => k))
  (at level 100, c at next level, right associativity) : result_scope.
Notation "c ;; k" := (result_bind c (fun _ => k))
  (at level 100, right associativity) : result_scope.

(** A list comprehension whose element expression has effects. *)
Fixpoint mapM {A B} (f : A -> M B) (l : list A) : M (list B) :=
  match l with
  | [] => ret []
  | x :: l' => (y <- f x ;; ys <- mapM f l' ;; ret (y :: ys))%M
  end.

(** The same over [result] alone. *)
Fixpoint map_result {A B} (f : A -> result B) (l : list A) : result (list B) :=
  match l with
  | [] => Ok []
  | x :: l' => (y <- f x ;; ys <- map_result f l' ;; Ok (y :: ys))%res
  end.

(** ** The constructor of the graph container *)

(** [np.max(a)] over the entries of an integer array; numpy raises
    [ValueError] on an array without entries. *)
Definition np_max (a : list (list nat)) : result nat :=
  match concat a with
  | [] => Raise ValueError
  | x :: l => Ok (foldr Nat.max x l)
  end.

(** Modelled from the spec: [deepchem/feat/graph_data.py] is not among the
    sources.  [GraphData(node_features, edge_index, edge_features)] keeps
    the triple of the data model and refuses, with [ValueError], arrays
    that break its invariants: the edge index has two rows, every index in
    it is the index of a node, and there is one edge-feature row per edge.
    The largest index is taken with [np.max], so an edge index without
    entries is refused as well. *)
Definition GraphData_init (node_features : list (list pyfloat))
    (edge_index : list (list nat))
    (edge_features : option (list (list pyfloat)))
  : result (GraphData (list (list pyfloat))) :=
  if negb (Nat.eqb (length edge_index) 2) then Raise ValueError
  else
    (largest <- np_max edge_index ;;
     if Nat.leb (length node_features) largest then Raise ValueError
     else
       match edge_features with
       | Some rows =>
           if negb (Nat.eqb (length (default [] (edge_index !! 0%nat)))
                            (length rows))
           then Raise ValueError
           else Ok (mkGraphData node_features edge_index edge_features)
       | None => Ok (mkGraphData node_features edge_index edge_features)
       end)%res.

(** ** List facts the loops rest on *)

Lemma lookup_pairs_even {A B} (f g : A -> B) (l : list A) (k : nat) :
  flat_map (fun x => [f x; g x]) l !! (2 * k) = f <$> l !! k.
Proof.
  revert k. induction l as [|x l IH]; intros k; simpl.
  - reflexivity.
  - destruct k as [|k]; simpl; [reflexivity|].
    replace (k + S (k + 0)) with (S (2 * k)) by lia.
    simpl. apply IH.
Qed.

Lemma lookup_pairs_odd {A B} (f g : A -> B) (l : list A) (k : nat) :
  flat_map (fun x => [f x; g x]) l !! (2 * k + 1) = g <$> l !! k.
Proof.
  revert k. induction l as [|x l IH]; intros k; simpl.
  - reflexivity.
  - destruct k as [|k]; simpl; [reflexivity|].
    replace (k + S (k + 0) + 1) with (S (2 * k + 1)) by lia.
    simpl. apply IH.
Qed.

Lemma length_pairs {A B} (f g : A -> B) (l : list A) :
  length (flat_map (fun x => [f x; g x]) l) = 2 * length l.
Proof. induction l as [|x l IH]; simpl; [reflexivity | lia]. Qed.

Lemma zip_pairs {A B} (f g : A -> B) (l : list A) :
  zip (flat_map (fun x => [f x; g x]) l) (flat_map (fun x => [g x; f x]) l)
  = flat_map (fun x => [(f x, g x); (g x, f x)]) l.
Proof. induction l as [|x l IH]; cbn; [reflexivity | by rewrite IH]. Qed.

Lemma elem_of_flat_map_pairs {A B} (f g : A -> B) (l : list A) (y : B) :
  y ∈ flat_map (fun x => [f x; g x]) l
  <-> exists x, x ∈ l /\ (y = f x \/ y = g x).
Proof.
  induction l as [|x l IH]; cbn [flat_map].
  - split; [intros H; by apply elem_of_nil in H|].
    intros (x & H & _). by apply elem_of_nil in H.
  - cbn [app]. rewrite !elem_of_cons, IH. split.
    + intros [->|[->|(x' & Hin & Hy)]].
      * exists x. split; [apply list_elem_of_here | by left].
      * exists x. split; [apply list_elem_of_here | by right].
      * exists x'. split; [by apply list_elem_of_further | exact Hy].
    + intros (x' & Hin & Hy). apply elem_of_cons in Hin as [->|Hin].
      * destruct Hy as [->| ->]; auto.
      * right; right. eauto.
Qed.

(** Results of a comprehension. *)

Lemma map_result_Ok {A B} (f : A -> result B) (l : list A) (rows : list B) :
  map_result f l = Ok rows -> Forall2 (fun a row => f a = Ok row) l rows.
Proof.
  revert rows. induction l as [|a l IH]; intros rows; simpl.
  - intros [= <-]. constructor.
  - destruct (f a) as [y|e] eqn:Hfa; simpl; [|discriminate].
    destruct (map_result f l) as [ys|e]; simpl; [|discriminate].
    intros [= <-]. constructor; [exact Hfa | by apply IH].
Qed.

Lemma map_result_Raise {A B} (f : A -> result B) (l : list A) (e : exn) :
  map_result f l = Raise e -> exists a, a ∈ l /\ f a = Raise e.
Proof.
  induction l as [|a l IH]; simpl; [discriminate|].
  destruct (f a) as [y|e'] eqn:Hfa; simpl.
  - destruct (map_result f l) as [ys|e'']; simpl; [discriminate|].
    intros [= <-]. destruct IH as (a' & Hin & Ha'); [reflexivity|].
    exists a'. split; [by apply list_elem_of_further | exact Ha'].
  - intros [= <-]. exists a. split; [apply list_elem_of_here | exact Hfa].
Qed.

(** ** The sparse bond-graph featurizer *)

Module MolGraphConvFeaturizer.

Section Featurizer.

(** The encoders of [deepchem.utils.molecule_feature_utils], called with
    their default vocabularies.  They read one atom or one bond and return
    a block of floats; only the partial charge can fail, because it reads a
    property that may be missing. *)
Variable get_atom_type_one_hot : RDKitAtom -> list pyfloat.
Variable get_atom_formal_charge : RDKitAtom -> list pyfloat.
Variable get_atom_hybridization_one_hot : RDKitAtom -> list pyfloat.
Variable construct_hydrogen_bonding_info : RDKitMol -> list (nat * string).
Variable get_atom_hydrogen_bonding_one_hot :
  RDKitAtom -> list (nat * string) -> list pyfloat.
Variable get_atom_is_in_aromatic_one_hot : RDKitAtom -> list pyfloat.
Variable get_atom_total_degree_one_hot : RDKitAtom -> list pyfloat.
Variable get_atom_total_num_Hs_one_hot : RDKitAtom -> list pyfloat.
Variable get_atom_chirality_one_hot : RDKitAtom -> list pyfloat.
Variable get_atom_partial_charge : RDKitAtom -> result (list pyfloat).
Variable get_bond_type_one_hot : RDKitBond -> list pyfloat.
Variable get_bond_is_in_same_ring_one_hot : RDKitBond -> list pyfloat.
Variable get_bond_is_conjugated_one_hot : RDKitBond -> list pyfloat.
Variable get_bond_stereo_one_hot : RDKitBond -> list pyfloat.

(** RDKit's charge module: whether [from rdkit.Chem import AllChem]
    succeeds, and the two values that
    [AllChem.ComputeGasteigerCharges(mol)] writes on each atom of [mol]:
    its charge and the charge of its implicit hydrogens. *)
Variable AllChem_importable : bool.
Variable gasteiger_charge : RDKitMol -> RDKitAtom -> string.
Variable gasteiger_h_charge : RDKitMol -> RDKitAtom -> string.

Definition _construct_atom_feature (atom : RDKitAtom)
    (h_bond_infos : list (nat * string))
    (use_chirality use_partial_charge : bool) : result (list pyfloat) :=
  let atom_type := get_atom_type_one_hot atom in
  let formal_charge := get_atom_formal_charge atom in
  let hybridization := get_atom_hybridization_one_hot atom in
  let acceptor_donor := get_atom_hydrogen_bonding_one_hot atom h_bond_infos in
  let aromatic := get_atom_is_in_aromatic_one_hot atom in
  let degree := get_atom_total_degree_one_hot atom in
  let total_num_Hs := get_atom_total_num_Hs_one_hot atom in
  let atom_feat :=
    atom_type ++ formal_charge ++ hybridization ++ acceptor_donor
      ++ aromatic ++ degree ++ total_num_Hs in
  let atom_feat :=
    if use_chirality then atom_feat ++ get_atom_chirality_one_hot atom
    else atom_feat in
  if use_partial_charge then
    (partial_charge <- get_atom_partial_charge atom ;;
     Ok (atom_feat ++ partial_charge))%res
  else Ok atom_feat.

Definition _construct_bond_feature (bond : RDKitBond) : list pyfloat :=
  let bond_type := get_bond_type_one_hot bond in
  let same_ring := get_bond_is_in_same_ring_one_hot bond in
  let conjugated := get_bond_is_conjugated_one_hot bond in
  let stereo := get_bond_stereo_one_hot bond in
  bond_type ++ same_ring ++ conjugated ++ stereo.

(** The featurizer instance: the three flags [__init__] stores. *)
Record self_t := mkSelf {
  use_edges : bool;
  use_chirality : bool;
  use_partial_charge : bool
}.

Definition __init__ (use_edges use_chirality use_partial_charge : bool)
  : self_t :=
  mkSelf use_edges use_chirality use_partial_charge.

(** [__init__()] with every default. *)
Definition default_self : self_t := __init__ false false false.

(** [from rdkit.Chem import AllChem] *)
Definition import_AllChem : result unit :=
  if AllChem_importable then Ok tt else Raise ModuleNotFoundError.

(** What [AllChem.ComputeGasteigerCharges(mol)] does to one atom: it sets
    the properties [_GasteigerCharge] and [_GasteigerHCharge]. *)
Definition annotate_atom (mol : RDKitMol) (a : RDKitAtom) : RDKitAtom :=
  SetProp "_GasteigerHCharge" (gasteiger_h_charge mol a)
    (SetProp "_GasteigerCharge" (gasteiger_charge mol a) a).

(** [AllChem.ComputeGasteigerCharges(mol)]: every atom of the molecule is
    annotated. *)
Definition annotate_charges (mol : RDKitMol) : RDKitMol :=
  mkMol (map (annotate_atom mol) (GetAtoms mol)) (GetBonds mol).

Definition ComputeGasteigerCharges : M unit :=
  (mol <- get_mol ;;
   log ComputeGasteigerCharges_called ;;
   set_mol (annotate_charges mol))%M.

(** Lines 179-180: the probe that decides whether charges are there. *)
Definition probe_charge (mol : RDKitMol) : result string :=
  (atom <- GetAtomWithIdx mol 0 ;; GetProp atom "_GasteigerCharge")%res.

(** Lines 178-187. *)
Definition ensure_partial_charges (self : self_t) : M unit :=
  (if use_partial_charge self then
     try_except
       (mol <- get_mol ;; _ <- lift (probe_charge mol) ;; ret tt)
       (fun _ =>
          (* If partial charges were not computed *)
          try_except
            (lift import_AllChem ;; ComputeGasteigerCharges)
            (fun e =>
               match e with
               | ModuleNotFoundError => raise ImportError
               | _ => raise e
               end))
   else ret tt)%M.

(** Lines 201-206: the two parallel endpoint lists. *)
Definition edge_lists (bonds : list RDKitBond) : list nat * list nat :=
  fold_left
    (fun '(src, dest) bond =>
       let start := GetBeginAtomIdx bond in
       let end_ := GetEndAtomIdx bond in
       (src ++ [start; end_], dest ++ [end_; start]))
    bonds ([], []).

(** Lines 211-213: [features += 2 * [_construct_bond_feature(bond)]]. *)
Definition bond_feature_rows (bonds : list RDKitBond) : list (list pyfloat) :=
  fold_left
    (fun features bond => features ++ replicate 2 (_construct_bond_feature bond))
    bonds [].

(** Lines 189-219: the node features, the edge index, the edge features. *)
Definition construct_graph (self : self_t) : M (GraphData (list (list pyfloat))) :=
  (mol <- get_mol ;;
   (* construct atom (node) feature *)
   let h_bond_infos := construct_hydrogen_bonding_info mol in
   atom_features <-
     mapM (fun atom =>
             log (construct_atom_feature_called (GetIdx atom)) ;;
             lift (_construct_atom_feature atom h_bond_infos
                     (use_chirality self) (use_partial_charge self)))
          (GetAtoms mol) ;;
   (* construct edge (bond) index *)
   let '(src, dest) := edge_lists (GetBonds mol) in
   (* construct edge (bond) feature *)
   let bond_features :=
     if use_edges self then Some (bond_feature_rows (GetBonds mol))
     else None in
   lift (GraphData_init atom_features [src; dest] bond_features))%M.

Definition _featurize (self : self_t) : M (GraphData (list (list pyfloat))) :=
  (ensure_partial_charges self ;; construct_graph self)%M.

(** *** The loops, read as list functions *)

Lemma edge_lists_acc (bonds : list RDKitBond) (src dest : list nat) :
  fold_left
    (fun '(src, dest) bond =>
       let start := GetBeginAtomIdx bond in
       let end_ := GetEndAtomIdx bond in
       (src ++ [start; end_], dest ++ [end_; start]))
    bonds (src, dest)
  = (src ++ flat_map (fun b => [GetBeginAtomIdx b; GetEndAtomIdx b]) bonds,
     dest ++ flat_map (fun b => [GetEndAtomIdx b; GetBeginAtomIdx b]) bonds).
Proof.
  revert src dest. induction bonds as [|b bonds IH]; intros src dest; simpl.
  - by rewrite !app_nil_r.
  - rewrite IH. by rewrite <- !app_assoc.
Qed.

Lemma edge_lists_flat (bonds : list RDKitBond) :
  edge_lists bonds
  = (flat_map (fun b => [GetBeginAtomIdx b; GetEndAtomIdx b]) bonds,
     flat_map (fun b => [GetEndAtomIdx b; GetBeginAtomIdx b]) bonds).
Proof. unfold edge_lists. by rewrite edge_lists_acc. Qed.

Lemma bond_feature_rows_acc (bonds : list RDKitBond) (acc : list (list pyfloat)) :
  fold_left
    (fun features bond => features ++ replicate 2 (_construct_bond_feature bond))
    bonds acc
  = acc ++ flat_map (fun b => [_construct_bond_feature b; _construct_bond_feature b]) bonds.
Proof.
  revert acc. induction bonds as [|b bonds IH]; intros acc; simpl.
  - by rewrite app_nil_r.
  - rewrite IH. by rewrite <- app_assoc.
Qed.

Lemma bond_feature_rows_flat (bonds : list RDKitBond) :
  bond_feature_rows bonds
  = flat_map (fun b => [_construct_bond_feature b; _construct_bond_feature b]) bonds.
Proof. unfold bond_feature_rows. by rewrite bond_feature_rows_acc. Qed.

(** *** [_featurize], step by step *)

(** The molecule [ensure_partial_charges] leaves behind, or what it raises. *)
Definition charges_step (self : self_t) (mol : RDKitMol) : result RDKitMol :=
  if use_partial_charge self then
    match probe_charge mol with
    | Ok _ => Ok mol
    | Raise _ =>
        if AllChem_importable then Ok (annotate_charges mol)
        else Raise ImportError
    end
  else Ok mol.

(** Lines 189-219 on a molecule that is no longer changed. *)
Definition assemble (self : self_t) (mol : RDKitMol) : result (GraphData (list (list pyfloat))) :=
  (atom_features <-
     map_result
       (fun atom =>
          _construct_atom_feature atom (construct_hydrogen_bonding_info mol)
            (use_chirality self) (use_partial_charge self))
       (GetAtoms mol) ;;
   GraphData_init atom_features
     [fst (edge_lists (GetBonds mol)); snd (edge_lists (GetBonds mol))]
     (if use_edges self then Some (bond_feature_rows (GetBonds mol))
      else None))%res.

Lemma ensure_partial_charges_cases (self : self_t) (w : world) :
  ensure_partial_charges self w =
    if use_partial_charge self then
      match probe_charge (w_mol w) with
      | Ok _ => (Ok tt, w)
      | Raise _ =>
          if AllChem_importable then
            (Ok tt, mkWorld (annotate_charges (w_mol w))
                            (w_trace w ++ [ComputeGasteigerCharges_called]))
          else (Raise ImportError, w)
      end
    else (Ok tt, w).
Proof.
  unfold ensure_partial_charges, try_except, bind, get_mol, lift, ret,
    import_AllChem, ComputeGasteigerCharges, log, set_mol, raise.
  destruct (use_partial_charge self); [|reflexivity].
  destruct (probe_charge (w_mol w)); [reflexivity|].
  destruct AllChem_importable; reflexivity.
Qed.

Lemma atom_loop_spec (f : RDKitAtom -> result (list pyfloat))
    (atoms : list RDKitAtom) (w : world) :
  exists n,
    mapM (fun atom =>
            (log (construct_atom_feature_called (GetIdx atom)) ;;
             lift (f atom))%M) atoms w
    = (map_result f atoms,
       mkWorld (w_mol w)
         (w_trace w
            ++ map (fun a => construct_atom_feature_called (GetIdx a))
                   (take n atoms)))
    /\ (is_Ok (map_result f atoms) = true -> n = length atoms).
Proof.
  revert w. induction atoms as [|a atoms IH]; intros w.
  - exists 0. destruct w; simpl. unfold ret. by rewrite app_nil_r.
  - destruct (IH (mkWorld (w_mol w)
                (w_trace w ++ [construct_atom_feature_called (GetIdx a)])))
      as (n & Heq & Hn).
    cbn [mapM map_result]. unfold bind at 1.
    change ((log (construct_atom_feature_called (GetIdx a)) ;; lift (f a))%M w)
      with (f a, mkWorld (w_mol w)
                   (w_trace w ++ [construct_atom_feature_called (GetIdx a)])).
    destruct (f a) as [row|e] eqn:Hfa; cbn [result_bind].
    + exists (S n). unfold bind at 1. rewrite Heq. cbn [w_mol w_trace take map].
      rewrite <- app_assoc. cbn [app].
      destruct (map_result f atoms) as [rows|e]; cbn [result_bind is_Ok] in *;
        unfold ret; split; try done.
      intros _. by rewrite Hn.
    + exists 1. cbn [take map]. rewrite take_0. done.
Qed.

Lemma construct_graph_spec (self : self_t) (w : world) :
  exists n,
    construct_graph self w
    = (assemble self (w_mol w),
       mkWorld (w_mol w)
         (w_trace w
            ++ map (fun a => construct_atom_feature_called (GetIdx a))
                   (take n (GetAtoms (w_mol w)))))
    /\ (is_Ok (assemble self (w_mol w)) = true ->
        n = length (GetAtoms (w_mol w))).
Proof.
  destruct (atom_loop_spec
    (fun atom => _construct_atom_feature atom
       (construct_hydrogen_bonding_info (w_mol w))
       (use_chirality self) (use_partial_charge self))
    (GetAtoms (w_mol w)) w) as (n & Heq & Hn).
  exists n. unfold construct_graph, assemble.
  unfold bind at 1, get_mol. cbv zeta. unfold bind at 1. rewrite Heq.
  destruct (map_result _ _); cbn [result_bind]; [|done].
  split; [by destruct (edge_lists _) | intros _; by apply Hn].
Qed.

Lemma _featurize_result (self : self_t) (w : world) :
  fst (_featurize self w)
  = (mol <- charges_step self (w_mol w) ;; assemble self mol)%res.
Proof.
  unfold _featurize, charges_step, bind.
  rewrite ensure_partial_charges_cases.
  destruct (use_partial_charge self);
    [destruct (probe_charge (w_mol w)); [|destruct AllChem_importable]|];
    try reflexivity;
    match goal with |- context [construct_graph self ?w0] =>
      destruct (construct_graph_spec self w0) as (n & -> & _)
    end; reflexivity.
Qed.

Lemma _featurize_mol (self : self_t) (w : world) :
  w_mol (snd (_featurize self w))
  = match charges_step self (w_mol w) with
    | Ok mol => mol
    | Raise _ => w_mol w
    end.
Proof.
  unfold _featurize, charges_step, bind.
  rewrite ensure_partial_charges_cases.
  destruct (use_partial_charge self);
    [destruct (probe_charge (w_mol w)); [|destruct AllChem_importable]|];
    try reflexivity;
    match goal with |- context [construct_graph self ?w0] =>
      destruct (construct_graph_spec self w0) as (n & -> & _)
    end; reflexivity.
Qed.

Lemma charges_step_keeps_shape (self : self_t) (mol mol' : RDKitMol) :
  charges_step self mol = Ok mol' ->
  GetBonds mol' = GetBonds mol
  /\ length (GetAtoms mol') = length (GetAtoms mol).
Proof.
  unfold charges_step.
  destruct (use_partial_charge self); [|by intros [= <-]].
  destruct (probe_charge mol); [by intros [= <-]|].
  destruct AllChem_importable; [|discriminate].
  intros [= <-]. unfold annotate_charges; simpl.
  by rewrite length_map.
Qed.

Lemma charges_step_Raise (self : self_t) (mol : RDKitMol) (e : exn) :
  charges_step self mol = Raise e -> use_partial_charge self = true.
Proof.
  unfold charges_step. destruct (use_partial_charge self); [done|discriminate].
Qed.

Lemma _construct_atom_feature_Raise (atom : RDKitAtom)
    (h_bond_infos : list (nat * string)) (chir pc : bool) (e : exn) :
  _construct_atom_feature atom h_bond_infos chir pc = Raise e -> pc = true.
Proof.
  unfold _construct_atom_feature. destruct pc; [done|discriminate].
Qed.

(** *** What the constructor accepts *)

(** The edge index of a molecule is accepted when the molecule has a bond
    and every bond joins two atom indices; it is refused otherwise. *)
Definition edges_accepted (mol : RDKitMol) : Prop :=
  GetBonds mol <> []
  /\ Forall (fun bond =>
               (GetBeginAtomIdx bond < length (GetAtoms mol))%nat
               /\ (GetEndAtomIdx bond < length (GetAtoms mol))%nat)
            (GetBonds mol).

Definition edges_refused (mol : RDKitMol) : Prop :=
  GetBonds mol = []
  \/ Exists (fun bond =>
               (length (GetAtoms mol) <= GetBeginAtomIdx bond)%nat
               \/ (length (GetAtoms mol) <= GetEndAtomIdx bond)%nat)
            (GetBonds mol).

Lemma edges_not_both (mol : RDKitMol) :
  edges_accepted mol -> edges_refused mol -> False.
Proof.
  intros [Hne Hall] [Hnil|Hex]; [done|].
  apply Exists_exists in Hex as (bond & Hin & Hout).
  rewrite Forall_forall in Hall. specialize (Hall bond Hin). lia.
Qed.

Lemma foldr_max_spec (x : nat) (l : list nat) :
  foldr Nat.max x l ∈ x :: l /\ Forall (fun y => (y <= foldr Nat.max x l)%nat) (x :: l).
Proof.
  induction l as [|y l [IHin IHall]]; cbn [foldr].
  - split; [apply list_elem_of_here|]. by repeat constructor.
  - apply Forall_cons in IHall as [Hx Hl]. split.
    + destruct (Nat.max_spec y (foldr Nat.max x l)) as [[_ ->]|[_ ->]].
      * apply elem_of_cons in IHin as [->|IHin]; [apply list_elem_of_here|].
        by do 2 apply list_elem_of_further.
      * apply list_elem_of_further, list_elem_of_here.
    + repeat apply Forall_cons_2; [lia|lia|].
      eapply Forall_impl; [exact Hl|]. intros z Hz. cbn in Hz. lia.
Qed.

(** [GraphData] called on the arrays [construct_graph] builds for a
    molecule with [n] node rows. *)
Lemma GraphData_init_edges (rows : list (list pyfloat))
    (bonds : list RDKitBond) (with_edges : bool) :
  match GraphData_init rows
          [fst (edge_lists bonds); snd (edge_lists bonds)]
          (if with_edges then Some (bond_feature_rows bonds) else None) with
  | Ok g =>
      g = mkGraphData rows
            [fst (edge_lists bonds); snd (edge_lists bonds)]
            (if with_edges then Some (bond_feature_rows bonds) else None)
      /\ bonds <> []
      /\ Forall (fun bond =>
                   (GetBeginAtomIdx bond < length rows)%nat
                   /\ (GetEndAtomIdx bond < length rows)%nat) bonds
  | Raise e =>
      e = ValueError
      /\ (bonds = []
          \/ Exists (fun bond =>
                       (length rows <= GetBeginAtomIdx bond)%nat
                       \/ (length rows <= GetEndAtomIdx bond)%nat) bonds)
  end.
Proof.
  rewrite edge_lists_flat. cbn [fst snd]. unfold GraphData_init, np_max.
  cbn [length Nat.eqb negb concat lookup list_lookup default].
  rewrite app_nil_r.
  destruct bonds as [|b bonds]; [cbn; auto|].
  set (src := flat_map _ (b :: bonds)). set (dest := flat_map _ (b :: bonds)).
  destruct (src ++ dest) as [|x l] eqn:Hcat.
  { apply (f_equal length) in Hcat. rewrite length_app in Hcat.
    subst src dest. rewrite !length_pairs in Hcat. cbn in Hcat. lia. }
  cbn [result_bind].
  destruct (foldr_max_spec x l) as [Hin Hall]. rewrite <- Hcat in Hin, Hall.
  destruct (Nat.leb_spec (length rows) (foldr Nat.max x l)) as [Hle|Hlt].
  - split; [reflexivity|]. right. apply Exists_exists.
    apply elem_of_app in Hin as [Hin|Hin]; subst src dest;
      apply elem_of_flat_map_pairs in Hin as (bond & Hbond & Hor);
      exists bond; (split; [exact Hbond|]); destruct Hor as [<-| <-]; auto.
  - assert (Forall (fun bond =>
                      (GetBeginAtomIdx bond < length rows)%nat
                      /\ (GetEndAtomIdx bond < length rows)%nat) (b :: bonds))
      as Hrange.
    { apply Forall_forall. intros bond Hbond.
      rewrite Forall_forall in Hall. split.
      - eapply Nat.le_lt_trans; [apply Hall|exact Hlt].
        apply elem_of_app. left. subst src.
        apply elem_of_flat_map_pairs. exists bond. auto.
      - eapply Nat.le_lt_trans; [apply Hall|exact Hlt].
        apply elem_of_app. left. subst src.
        apply elem_of_flat_map_pairs. exists bond. auto. }
    destruct with_edges; [|done].
    rewrite bond_feature_rows_flat. subst src. unfold id.
    rewrite !length_pairs, Nat.eqb_refl. done.
Qed.

(** Every way a call can end: a graph assembled from the molecule as the
    charge step left it, an exception on the partial-charge path, or the
    [ValueError] of [GraphData] on an edge index it refuses. *)
Lemma _featurize_cases (self : self_t) (w : world) :
  match fst (_featurize self w) with
  | Ok g =>
      exists mol rows,
        charges_step self (w_mol w) = Ok mol
        /\ Forall2
             (fun atom row =>
                _construct_atom_feature atom
                  (construct_hydrogen_bonding_info mol)
                  (use_chirality self) (use_partial_charge self) = Ok row)
             (GetAtoms mol) rows
        /\ g = mkGraphData rows
                 [fst (edge_lists (GetBonds (w_mol w)));
                  snd (edge_lists (GetBonds (w_mol w)))]
                 (if use_edges self
                  then Some (bond_feature_rows (GetBonds (w_mol w)))
                  else None)
        /\ edges_accepted (w_mol w)
  | Raise e =>
      use_partial_charge self = true
      \/ (e = ValueError /\ edges_refused (w_mol w))
  end.
Proof.
  rewrite _featurize_result.
  destruct (charges_step self (w_mol w)) as [mol|e] eqn:Hstep;
    cbn [result_bind]; [|left; by eapply charges_step_Raise].
  destruct (charges_step_keeps_shape _ _ _ Hstep) as [Hbonds Hatoms].
  unfold assemble.
  destruct (map_result _ (GetAtoms mol)) as [rows|e] eqn:Hrows;
    cbn [result_bind].
  - apply map_result_Ok in Hrows.
    pose proof (Forall2_length _ _ _ Hrows) as Hlen.
    pose proof (GraphData_init_edges rows (GetBonds mol) (use_edges self))
      as Hinit.
    unfold edges_accepted, edges_refused. rewrite <- Hatoms, Hlen, <- Hbonds.
    destruct (GraphData_init rows _ _) as [g|e].
    + destruct Hinit as (-> & Hne & Hrange). exists mol, rows. done.
    + right. exact Hinit.
  - left. apply map_result_Raise in Hrows as (a & _ & Ha).
    by eapply _construct_atom_feature_Raise.
Qed.

(** Without [use_partial_charge], a molecule whose edge index is accepted
    yields a graph. *)
Lemma _featurize_returns (self : self_t) (w : world) :
  use_partial_charge self = false ->
  edges_accepted (w_mol w) ->
  is_Ok (fst (_featurize self w)) = true.
Proof.
  intros Hpc Hacc. pose proof (_featurize_cases self w) as H.
  destruct (fst (_featurize self w)); [reflexivity|].
  destruct H as [H|[_ H]]; [congruence|].
  destruct (edges_not_both _ Hacc H).
Qed.

(** A molecule whose edge index is refused yields no graph. *)
Lemma _featurize_refused (self : self_t) (w : world) :
  edges_refused (w_mol w) ->
  is_Ok (fst (_featurize self w)) = false.
Proof.
  intros Href. pose proof (_featurize_cases self w) as H.
  destruct (fst (_featurize self w)); [|reflexivity].
  destruct H as (mol & rows & _ & _ & _ & Hacc).
  destruct (edges_not_both _ Hacc Href).
Qed.

(** *** What the sparse featurizer returns *)

(** C1. For every molecule with B bonds, the two lists the bond loop
    builds, [src] and [dest], have 2B entries each, and bond number k of
    the molecule, joining [start] and [end], fills columns 2k and 2k+1 with
    (start, end) and then (end, start).  The edge index of a returned graph
    is the matrix of these two rows.  A call that returns no graph raised
    on the partial-charge path, or [GraphData] refused the index with
    [ValueError]: the molecule has no bond, or a bond whose endpoint is no
    atom index. *)
Theorem edge_index_directed_pairs (self : self_t) (w : world) :
  exists src dest,
    edge_lists (GetBonds (w_mol w)) = (src, dest)
    /\ length src = 2 * length (GetBonds (w_mol w))
    /\ length dest = 2 * length (GetBonds (w_mol w))
    /\ (forall k bond,
          GetBonds (w_mol w) !! k = Some bond ->
          src !! (2 * k) = Some (GetBeginAtomIdx bond)
          /\ dest !! (2 * k) = Some (GetEndAtomIdx bond)
          /\ src !! (2 * k + 1) = Some (GetEndAtomIdx bond)
          /\ dest !! (2 * k + 1) = Some (GetBeginAtomIdx bond))
    /\ match fst (_featurize self w) with
       | Ok g => edge_index g = [src; dest]
       | Raise e =>
           use_partial_charge self = true
           \/ (e = ValueError /\ edges_refused (w_mol w))
       end.
Proof.
  pose proof (_featurize_cases self w) as H.
  rewrite edge_lists_flat in *. cbn [fst snd] in H.
  eexists _, _. split; [reflexivity|].
  rewrite !length_pairs. do 2 (split; [reflexivity|]).
  split.
  - intros k bond Hk.
    rewrite !lookup_pairs_even, !lookup_pairs_odd, Hk. done.
  - destruct (fst (_featurize self w)) as [g|e]; [|exact H].
    by destruct H as (mol & rows & _ & _ & -> & _).
Qed.

(** C3. Without [use_edges] the returned graph has no edge features.  With
    [use_edges], for a molecule with B bonds it has 2B edge-feature rows,
    and rows 2k and 2k+1 are both the feature vector of bond number k.  A
    call that returns no graph raised on the partial-charge path, or
    [GraphData] refused the edge index with [ValueError]. *)
Theorem edge_features_duplicated (self : self_t) (w : world) :
  match fst (_featurize self w) with
  | Ok g =>
      if use_edges self then
        exists rows,
          edge_features g = Some rows
          /\ length rows = 2 * length (GetBonds (w_mol w))
          /\ forall k bond,
               GetBonds (w_mol w) !! k = Some bond ->
               rows !! (2 * k) = Some (_construct_bond_feature bond)
               /\ rows !! (2 * k + 1) = Some (_construct_bond_feature bond)
      else edge_features g = None
  | Raise e =>
      use_partial_charge self = true
      \/ (e = ValueError /\ edges_refused (w_mol w))
  end.
Proof.
  pose proof (_featurize_cases self w) as H.
  destruct (fst (_featurize self w)) as [g|e]; [|exact H].
  destruct H as (mol & rows & _ & _ & -> & _). cbn [edge_features].
  destruct (use_edges self); [|reflexivity].
  eexists. split; [reflexivity|].
  rewrite bond_feature_rows_flat, length_pairs. split; [reflexivity|].
  intros k bond Hk.
  rewrite lookup_pairs_even, lookup_pairs_odd, Hk. done.
Qed.

Section Widths.

(** The block widths of the default vocabularies, as the class docstring
    lists them: ten atom types, the formal charge, three hybridizations,
    donor and acceptor, the aromatic flag, degrees 0-5 and a catch-all,
    hydrogen counts 0-4 and a catch-all. *)
Hypothesis atom_type_width :
  forall a, length (get_atom_type_one_hot a) = 10.
Hypothesis formal_charge_width :
  forall a, length (get_atom_formal_charge a) = 1.
Hypothesis hybridization_width :
  forall a, length (get_atom_hybridization_one_hot a) = 3.
Hypothesis hydrogen_bonding_width :
  forall a infos, length (get_atom_hydrogen_bonding_one_hot a infos) = 2.
Hypothesis aromatic_width :
  forall a, length (get_atom_is_in_aromatic_one_hot a) = 1.
Hypothesis degree_width :
  forall a, length (get_atom_total_degree_one_hot a) = 7.
Hypothesis num_Hs_width :
  forall a, length (get_atom_total_num_Hs_one_hot a) = 6.

(** The chirality block has one width for every atom, and the partial
    charge is one number. *)
Variable chirality_width : nat.
Hypothesis chirality_block_width :
  forall a, length (get_atom_chirality_one_hot a) = chirality_width.
Hypothesis partial_charge_width :
  forall a v, get_atom_partial_charge a = Ok v -> length v = 1.

Definition atom_feature_width (self : self_t) : nat :=
  30 + (if use_chirality self then chirality_width else 0)
     + (if use_partial_charge self then 1 else 0).

Lemma _construct_atom_feature_length (self : self_t) (atom : RDKitAtom)
    (h_bond_infos : list (nat * string)) (row : list pyfloat) :
  _construct_atom_feature atom h_bond_infos
    (use_chirality self) (use_partial_charge self) = Ok row ->
  length row = atom_feature_width self.
Proof.
  unfold _construct_atom_feature, atom_feature_width.
  destruct (use_partial_charge self).
  - destruct (get_atom_partial_charge atom) as [pc|e] eqn:Hpc;
      cbn [result_bind]; [|discriminate].
    intros [= <-]. apply partial_charge_width in Hpc.
    destruct (use_chirality self);
      rewrite !length_app, ?atom_type_width, ?formal_charge_width,
        ?hybridization_width, ?hydrogen_bonding_width, ?aromatic_width,
        ?degree_width, ?num_Hs_width, ?chirality_block_width, Hpc; lia.
  - intros [= <-].
    destruct (use_chirality self);
      rewrite !length_app, ?atom_type_width, ?formal_charge_width,
        ?hybridization_width, ?hydrogen_bonding_width, ?aromatic_width,
        ?degree_width, ?num_Hs_width, ?chirality_block_width; lia.
Qed.

Lemma charges_step_atoms (self : self_t) (mol mol' : RDKitMol)
    (i : nat) (atom : RDKitAtom) :
  charges_step self mol = Ok mol' ->
  GetAtoms mol' !! i = Some atom ->
  exists atom0,
    GetAtoms mol !! i = Some atom0
    /\ (atom = atom0 \/ atom = annotate_atom mol atom0).
Proof.
  unfold charges_step.
  destruct (use_partial_charge self);
    [destruct (probe_charge mol); [|destruct AllChem_importable]|];
    try discriminate; intros [= <-] Hi; eauto.
  unfold annotate_charges in Hi; cbn [GetAtoms] in Hi.
  change (map ?f ?l) with (f <$> l) in Hi.
  rewrite list_lookup_fmap in Hi.
  destruct (GetAtoms mol !! i) as [atom0|]; [|discriminate].
  injection Hi as <-. eauto.
Qed.

(** C2. The node-feature matrix of the returned graph has one row per atom
    of the molecule; every row has the same length, 30 with the default
    flags, plus the width of the chirality block under [use_chirality],
    plus 1 under [use_partial_charge]; and row i is the feature vector of
    atom number i (annotated with its charges when the call had to compute
    them).  A call that returns no graph raised on the partial-charge path,
    or [GraphData] refused the edge index with [ValueError]. *)
Theorem node_features_shape (self : self_t) (w : world) :
  match fst (_featurize self w) with
  | Ok g =>
      length (node_features g) = length (GetAtoms (w_mol w))
      /\ forall i row,
           node_features g !! i = Some row ->
           length row = atom_feature_width self
           /\ exists atom0 atom,
                GetAtoms (w_mol w) !! i = Some atom0
                /\ (atom = atom0 \/ atom = annotate_atom (w_mol w) atom0)
                /\ _construct_atom_feature atom
                     (construct_hydrogen_bonding_info
                        (w_mol (snd (_featurize self w))))
                     (use_chirality self) (use_partial_charge self) = Ok row
  | Raise e =>
      use_partial_charge self = true
      \/ (e = ValueError /\ edges_refused (w_mol w))
  end.
Proof.
  pose proof (_featurize_cases self w) as H.
  pose proof (_featurize_mol self w) as Hmol.
  destruct (fst (_featurize self w)) as [g|e]; [|exact H].
  destruct H as (mol & rows & Hstep & Hrows & -> & _). cbn [node_features].
  rewrite Hstep in Hmol. rewrite Hmol.
  destruct (charges_step_keeps_shape _ _ _ Hstep) as [_ Hlen].
  split.
  - rewrite <- Hlen. symmetry. by eapply Forall2_length.
  - intros i row Hi.
    destruct (Forall2_lookup_r _ _ _ _ _ Hrows Hi) as (atom & Ha & Henc).
    split; [by eapply _construct_atom_feature_length|].
    destruct (charges_step_atoms _ _ _ _ _ Hstep Ha) as (atom0 & Ha0 & Hor).
    exists atom0, atom. done.
Qed.

End Widths.

Lemma probe_charge_annotated (mol : RDKitMol) (a : RDKitAtom)
    (atoms : list RDKitAtom) :
  GetAtoms mol = a :: atoms ->
  probe_charge (annotate_charges mol) = Ok (gasteiger_charge mol a).
Proof.
  intros Hatoms. unfold probe_charge, GetAtomWithIdx, annotate_charges.
  cbn [GetAtoms]. rewrite Hatoms. cbn [map lookup list_lookup result_bind].
  unfold GetProp, annotate_atom, SetProp; cbn [atom_props].
  rewrite lookup_insert_ne by discriminate.
  by rewrite lookup_insert_eq.
Qed.

Lemma annotate_charges_no_atoms (mol : RDKitMol) :
  GetAtoms mol = [] ->
  annotate_charges (annotate_charges mol) = annotate_charges mol.
Proof. intros H. unfold annotate_charges. cbn [GetAtoms GetBonds]. by rewrite H. Qed.

(** Once the charge step went through, it leaves the molecule alone. *)
Lemma charges_step_idempotent (self : self_t) (mol mol' : RDKitMol) :
  charges_step self mol = Ok mol' -> charges_step self mol' = Ok mol'.
Proof.
  unfold charges_step.
  destruct (use_partial_charge self); [|by intros [= <-]].
  destruct (probe_charge mol) as [c|e] eqn:Hprobe.
  - intros [= <-]. by rewrite Hprobe.
  - destruct AllChem_importable eqn:Himp; [|discriminate].
    intros [= <-].
    destruct (GetAtoms mol) as [|a atoms] eqn:Hatoms.
    + destruct (probe_charge (annotate_charges mol)); [reflexivity|].
      by rewrite annotate_charges_no_atoms.
    + by rewrite (probe_charge_annotated mol a atoms Hatoms).
Qed.

(** C9. Featurizing a molecule and then featurizing the same molecule
    object again, with the same flags, ends the same way: the same node
    features, edge index and edge features, or the same exception, although
    the first call may have annotated the molecule with charges. *)
Theorem featurize_twice (self : self_t) (w : world) :
  fst (_featurize self (snd (_featurize self w))) = fst (_featurize self w).
Proof.
  rewrite !_featurize_result, _featurize_mol.
  destruct (charges_step self (w_mol w)) as [mol|e] eqn:Hstep.
  - by rewrite (charges_step_idempotent _ _ _ Hstep).
  - by rewrite Hstep.
Qed.

Lemma annotate_charges_calls (mol : RDKitMol) (n : nat) :
  map (fun a => construct_atom_feature_called (GetIdx a))
      (take n (GetAtoms (annotate_charges mol)))
  = map (fun a => construct_atom_feature_called (GetIdx a))
        (take n (GetAtoms mol)).
Proof.
  unfold annotate_charges; cbn [GetAtoms].
  revert n. induction (GetAtoms mol) as [|a atoms IH]; intros [|n];
    cbn [map take]; try reflexivity.
  by rewrite IH.
Qed.

(** C4. With [use_partial_charge], on a molecule whose charge probe fails
    (no atom 0, or atom 0 without the [_GasteigerCharge] property): when
    RDKit's charge module can be imported, the call computes the charges of
    the whole molecule once, and every atom is encoded after that, in atom
    order; when it cannot, the call raises [ImportError] and has done
    nothing. *)
Theorem charges_computed_once_before_atoms (self : self_t) (w : world) :
  use_partial_charge self = true ->
  is_Ok (probe_charge (w_mol w)) = false ->
  if AllChem_importable then
    w_mol (snd (_featurize self w)) = annotate_charges (w_mol w)
    /\ exists n,
         w_trace (snd (_featurize self w))
         = w_trace w
             ++ ComputeGasteigerCharges_called
             :: map (fun a => construct_atom_feature_called (GetIdx a))
                    (take n (GetAtoms (w_mol w)))
         /\ (is_Ok (fst (_featurize self w)) = true ->
             n = length (GetAtoms (w_mol w)))
  else _featurize self w = (Raise ImportError, w).
Proof.
  intros Hpc Hprobe.
  unfold _featurize, bind. rewrite ensure_partial_charges_cases, Hpc.
  destruct (probe_charge (w_mol w)); [discriminate|].
  destruct AllChem_importable; [|reflexivity].
  match goal with |- context [construct_graph self ?w0] =>
    destruct (construct_graph_spec self w0) as (n & -> & Hn)
  end.
  cbn [w_mol w_trace fst snd] in *. split; [reflexivity|].
  exists n. rewrite annotate_charges_calls, <- app_assoc.
  split; [reflexivity|].
  intros Hok. rewrite Hn by exact Hok.
  unfold annotate_charges; cbn [GetAtoms]. by rewrite length_map.
Qed.

(** *** More on the edges of the returned graph *)

(** The directed edges of the returned graph are exactly the bonds of the
    molecule, each in both directions: (u, v) is a column of the edge index
    if and only if some bond joins u and v, whichever end it begins at.  So
    the edge set is symmetric.  A call that returns no graph raised on the
    partial-charge path, or [GraphData] refused the edge index. *)
Theorem edge_set_is_bonds_both_ways (self : self_t) (w : world) :
  match fst (_featurize self w) with
  | Ok g =>
      exists src dest,
        edge_index g = [src; dest]
        /\ (forall u v,
              (u, v) ∈ zip src dest
              <-> exists bond,
                    bond ∈ GetBonds (w_mol w)
                    /\ ((u = GetBeginAtomIdx bond /\ v = GetEndAtomIdx bond)
                        \/ (u = GetEndAtomIdx bond /\ v = GetBeginAtomIdx bond)))
        /\ (forall u v, (u, v) ∈ zip src dest -> (v, u) ∈ zip src dest)
  | Raise e =>
      use_partial_charge self = true
      \/ (e = ValueError /\ edges_refused (w_mol w))
  end.
Proof.
  pose proof (_featurize_cases self w) as H.
  destruct (fst (_featurize self w)) as [g|e]; [|exact H].
  destruct H as (mol & rows & _ & _ & -> & _).
  rewrite edge_lists_flat. cbn [fst snd edge_index].
  eexists _, _. split; [reflexivity|].
  assert (forall u v,
            (u, v) ∈ zip
              (flat_map (fun b => [GetBeginAtomIdx b; GetEndAtomIdx b])
                        (GetBonds (w_mol w)))
              (flat_map (fun b => [GetEndAtomIdx b; GetBeginAtomIdx b])
                        (GetBonds (w_mol w)))
            <-> exists bond,
                  bond ∈ GetBonds (w_mol w)
                  /\ ((u = GetBeginAtomIdx bond /\ v = GetEndAtomIdx bond)
                      \/ (u = GetEndAtomIdx bond /\ v = GetBeginAtomIdx bond)))
    as Hedges.
  { intros u v. rewrite zip_pairs.
    rewrite (elem_of_flat_map_pairs
               (fun b => (GetBeginAtomIdx b, GetEndAtomIdx b))
               (fun b => (GetEndAtomIdx b, GetBeginAtomIdx b))).
    split; intros (bond & Hin & Hor); exists bond; (split; [exact Hin|]);
      destruct Hor as [Heq|Heq]; [left|right|left|right];
      first [by injection Heq | by destruct Heq as [-> ->]]. }
  split; [exact Hedges|].
  intros u v Huv. apply Hedges. apply Hedges in Huv as (bond & Hin & Hor).
  exists bond. split; [exact Hin|]. tauto.
Qed.

(** A returned graph has at least one edge, and every entry of its edge
    index is the index of a row of its node-feature matrix: [GraphData]
    refuses every other index.  A call that returns no graph raised on the
    partial-charge path, or [GraphData] refused the edge index. *)
Theorem edge_index_within_nodes (self : self_t) (w : world) :
  match fst (_featurize self w) with
  | Ok g =>
      Forall (Forall (fun v => (v < length (node_features g))%nat))
             (edge_index g)
      /\ Forall (fun column => column <> []) (edge_index g)
      /\ length (node_features g) = length (GetAtoms (w_mol w))
  | Raise e =>
      use_partial_charge self = true
      \/ (e = ValueError /\ edges_refused (w_mol w))
  end.
Proof.
  pose proof (_featurize_cases self w) as H.
  destruct (fst (_featurize self w)) as [g|e]; [|exact H].
  destruct H as (mol & rows & Hstep & Hrows & -> & Hne & Hbonds).
  destruct (charges_step_keeps_shape _ _ _ Hstep) as [_ Hlen].
  apply Forall2_length in Hrows.
  rewrite edge_lists_flat. cbn [fst snd edge_index node_features].
  rewrite <- Hrows, Hlen. split; [|split; [|reflexivity]].
  - repeat apply Forall_cons_2; [| |apply Forall_nil_2];
      apply Forall_forall; intros v Hv;
      apply elem_of_flat_map_pairs in Hv as (bond & Hin & Hor);
      rewrite Forall_forall in Hbonds; destruct (Hbonds bond Hin) as [Hb He];
      destruct Hor as [-> | ->]; assumption.
  - destruct (GetBonds (w_mol w)) as [|b bonds]; [done|].
    repeat apply Forall_cons_2; [| |apply Forall_nil_2]; discriminate.
Qed.

Section BondWidths.

(** The block widths of the default bond vocabularies: four bond types,
    the ring flag, the conjugation flag, four stereo descriptors and a
    catch-all. *)
Hypothesis bond_type_width :
  forall b, length (get_bond_type_one_hot b) = 4.
Hypothesis same_ring_width :
  forall b, length (get_bond_is_in_same_ring_one_hot b) = 1.
Hypothesis conjugated_width :
  forall b, length (get_bond_is_conjugated_one_hot b) = 1.
Hypothesis stereo_width :
  forall b, length (get_bond_stereo_one_hot b) = 5.

(** With the documented bond block widths, every row of the edge-feature
    matrix has 11 entries, and the matrix has as many rows as the edge
    index has columns.  A call that returns no graph raised on the
    partial-charge path, or [GraphData] refused the edge index. *)
Theorem edge_features_width (self : self_t) (w : world) :
  match fst (_featurize self w) with
  | Ok g =>
      forall rows,
        edge_features g = Some rows ->
        Forall (fun row => length row = 11) rows
        /\ Forall (fun column => length column = length rows) (edge_index g)
  | Raise e =>
      use_partial_charge self = true
      \/ (e = ValueError /\ edges_refused (w_mol w))
  end.
Proof.
  pose proof (_featurize_cases self w) as H.
  destruct (fst (_featurize self w)) as [g|e]; [|exact H].
  destruct H as (mol & rows0 & _ & _ & -> & _). cbn [edge_features edge_index].
  intros rows Hrows. destruct (use_edges self); [|discriminate].
  injection Hrows as <-.
  rewrite bond_feature_rows_flat, edge_lists_flat. cbn [fst snd]. split.
  - apply Forall_forall. intros row Hrow.
    apply elem_of_flat_map_pairs in Hrow as (bond & _ & Hor).
    assert (row = _construct_bond_feature bond) as -> by tauto.
    unfold _construct_bond_feature.
    rewrite !length_app, bond_type_width, same_ring_width, conjugated_width,
      stereo_width. reflexivity.
  - repeat apply Forall_cons_2; [| |apply Forall_nil_2];
      by rewrite !length_pairs.
Qed.

End BondWidths.

(** *** What a call does to the molecule and the log *)

(** Whether a call runs the charge computation: lines 178-181. *)
Definition computes_charges (self : self_t) (mol : RDKitMol) : bool :=
  use_partial_charge self && negb (is_Ok (probe_charge mol)).

Lemma _featurize_effects (self : self_t) (w : world) :
  match charges_step self (w_mol w) with
  | Ok mol' =>
      exists n,
        snd (_featurize self w)
        = mkWorld mol'
            (w_trace w
               ++ (if computes_charges self (w_mol w)
                   then [ComputeGasteigerCharges_called] else [])
               ++ map (fun a => construct_atom_feature_called (GetIdx a))
                      (take n (GetAtoms (w_mol w))))
        /\ (is_Ok (fst (_featurize self w)) = true ->
            n = length (GetAtoms (w_mol w)))
  | Raise _ => snd (_featurize self w) = w
  end.
Proof.
  unfold _featurize, bind, charges_step, computes_charges.
  rewrite ensure_partial_charges_cases.
  destruct (use_partial_charge self); cbn [andb];
    [destruct (probe_charge (w_mol w)); cbn [is_Ok negb];
       [|destruct AllChem_importable]|];
    try reflexivity;
    match goal with |- context [construct_graph self ?w0] =>
      destruct (construct_graph_spec self w0) as (n & -> & Hn)
    end; cbn [w_mol w_trace fst snd] in *; exists n.
  - split; [reflexivity | exact Hn].
  - rewrite annotate_charges_calls, <- app_assoc.
    split; [reflexivity|]. intros Hok. rewrite Hn by exact Hok.
    unfold annotate_charges; cbn [GetAtoms]. by rewrite length_map.
  - split; [reflexivity | exact Hn].
Qed.

(** A call that has no charges to compute (no [use_partial_charge], or
    atom 0 already carries its charge) leaves the molecule alone and only
    encodes atoms, one after the other from atom 0 on, all of them when it
    returns. *)
Theorem no_charge_computation (self : self_t) (w : world) :
  use_partial_charge self = false
  \/ is_Ok (probe_charge (w_mol w)) = true ->
  w_mol (snd (_featurize self w)) = w_mol w
  /\ exists n,
       w_trace (snd (_featurize self w))
       = w_trace w
           ++ map (fun a => construct_atom_feature_called (GetIdx a))
                  (take n (GetAtoms (w_mol w)))
       /\ (is_Ok (fst (_featurize self w)) = true ->
           n = length (GetAtoms (w_mol w))).
Proof.
  intros Hno. pose proof (_featurize_effects self w) as H.
  assert (charges_step self (w_mol w) = Ok (w_mol w)
          /\ computes_charges self (w_mol w) = false) as [Hstep Hcomp].
  { unfold charges_step, computes_charges.
    destruct (use_partial_charge self); [|done].
    destruct Hno as [Hno|Hno]; [discriminate|].
    by destruct (probe_charge (w_mol w)). }
  rewrite Hstep, Hcomp in H. destruct H as (n & -> & Hn).
  split; [reflexivity|]. exists n. by split.
Qed.

(** Two atoms that differ at most in the properties [_GasteigerCharge] and
    [_GasteigerHCharge]. *)
Definition same_but_charges (a a' : RDKitAtom) : Prop :=
  GetIdx a' = GetIdx a
  /\ GetSymbol a' = GetSymbol a
  /\ GetFormalCharge a' = GetFormalCharge a
  /\ GetHybridization a' = GetHybridization a
  /\ GetIsAromatic a' = GetIsAromatic a
  /\ GetTotalDegree a' = GetTotalDegree a
  /\ GetTotalNumHs a' = GetTotalNumHs a
  /\ forall name,
       name <> "_GasteigerCharge" -> name <> "_GasteigerHCharge" ->
       atom_props a' !! name = atom_props a !! name.

Lemma same_but_charges_refl (a : RDKitAtom) : same_but_charges a a.
Proof. unfold same_but_charges. tauto. Qed.

Lemma same_but_charges_annotate (mol : RDKitMol) (a : RDKitAtom) :
  same_but_charges a (annotate_atom mol a).
Proof.
  unfold same_but_charges, annotate_atom, SetProp; cbn.
  repeat (split; [reflexivity|]).
  intros name Hcharge Hhcharge. by rewrite !lookup_insert_ne.
Qed.

(** Whatever the flags and however the call ends, the molecule keeps its
    bonds and its atoms; an atom can differ from what it was only in the
    two properties the charge computation writes, [_GasteigerCharge] and
    [_GasteigerHCharge], and it differs only when the call computed the
    charges. *)
Theorem molecule_changes_only_charges (self : self_t) (w : world) :
  GetBonds (w_mol (snd (_featurize self w))) = GetBonds (w_mol w)
  /\ Forall2 same_but_charges
       (GetAtoms (w_mol w)) (GetAtoms (w_mol (snd (_featurize self w))))
  /\ (w_mol (snd (_featurize self w)) = w_mol w
      \/ (w_mol (snd (_featurize self w)) = annotate_charges (w_mol w)
          /\ use_partial_charge self = true
          /\ is_Ok (probe_charge (w_mol w)) = false)).
Proof.
  rewrite _featurize_mol. unfold charges_step.
  destruct (use_partial_charge self);
    [destruct (probe_charge (w_mol w)); [|destruct AllChem_importable]|];
    try (split; [reflexivity|]; split; [|by left];
         apply Forall_Forall2_diag, Forall_forall; intros;
         apply same_but_charges_refl).
  split; [reflexivity|]. split; [|by right].
  unfold annotate_charges; cbn [GetAtoms].
  change (map ?f ?l) with (f <$> l). apply Forall2_fmap_r.
  apply Forall_Forall2_diag, Forall_forall. intros a _.
  apply same_but_charges_annotate.
Qed.

(** A second call on the same molecule object leaves the molecule as the
    first call left it. *)
Theorem second_call_keeps_molecule (self : self_t) (w : world) :
  w_mol (snd (_featurize self (snd (_featurize self w))))
  = w_mol (snd (_featurize self w)).
Proof.
  rewrite (_featurize_mol self (snd (_featurize self w))).
  rewrite (_featurize_mol self w).
  destruct (charges_step self (w_mol w)) as [mol|e] eqn:Hstep.
  - by rewrite (charges_step_idempotent _ _ _ Hstep).
  - by rewrite Hstep.
Qed.

(** After a call that returned a graph for a molecule with at least one
    atom, a second call on the same molecule object does not compute
    charges again: it encodes each atom once, in order, and nothing
    else. *)
Theorem second_call_computes_nothing (self : self_t) (w : world) :
  GetAtoms (w_mol w) <> [] ->
  is_Ok (fst (_featurize self w)) = true ->
  snd (_featurize self (snd (_featurize self w)))
  = mkWorld (w_mol (snd (_featurize self w)))
      (w_trace (snd (_featurize self w))
         ++ map (fun a => construct_atom_feature_called (GetIdx a))
                (GetAtoms (w_mol (snd (_featurize self w))))).
Proof.
  intros Hatoms Hok.
  pose proof (_featurize_result self w) as Hres.
  pose proof (_featurize_mol self w) as Hmol.
  destruct (charges_step self (w_mol w)) as [mol|e] eqn:Hstep;
    cbn [result_bind] in Hres; [|rewrite Hres in Hok; discriminate].
  set (w1 := snd (_featurize self w)) in *.
  pose proof (charges_step_idempotent _ _ _ Hstep) as Hidem.
  pose proof (_featurize_effects self w1) as Heff.
  pose proof (_featurize_result self w1) as Hres1.
  rewrite Hmol, Hidem in Heff, Hres1. cbn [result_bind] in Hres1.
  assert (computes_charges self mol = false) as Hcomp.
  { unfold computes_charges. unfold charges_step in Hstep.
    destruct (use_partial_charge self); [|reflexivity]. cbn [andb].
    destruct (probe_charge (w_mol w)) as [c|e] eqn:Hprobe.
    - injection Hstep as <-. by rewrite Hprobe.
    - destruct AllChem_importable; [|discriminate]. injection Hstep as <-.
      destruct (GetAtoms (w_mol w)) as [|a atoms] eqn:Ha; [done|].
      by rewrite (probe_charge_annotated _ a atoms Ha). }
  rewrite Hcomp in Heff. destruct Heff as (n & -> & Hn).
  rewrite Hn by (rewrite Hres1, <- Hres; exact Hok).
  rewrite Hmol, firstn_all. reflexivity.
Qed.

Lemma _construct_atom_feature_Raise_charge (atom : RDKitAtom)
    (h_bond_infos : list (nat * string)) (chir pc : bool) (e : exn) :
  _construct_atom_feature atom h_bond_infos chir pc = Raise e ->
  get_atom_partial_charge atom = Raise e.
Proof.
  unfold _construct_atom_feature. destruct pc; [|discriminate].
  by destruct (get_atom_partial_charge atom).
Qed.

(** A call raises in three ways only.  Under [use_partial_charge]:
    [ImportError], when the charge probe fails and RDKit's charge module
    cannot be imported; or the exception of [get_atom_partial_charge] on
    one of the atoms of the molecule as the call leaves it.  Under any
    flags: the [ValueError] of [GraphData] on a molecule that has no bond,
    or a bond whose endpoint is no atom index. *)
Theorem featurize_exceptions (self : self_t) (w : world) (e : exn) :
  fst (_featurize self w) = Raise e ->
  (use_partial_charge self = true
   /\ e = ImportError
   /\ AllChem_importable = false
   /\ is_Ok (probe_charge (w_mol w)) = false
   /\ snd (_featurize self w) = w)
  \/ (use_partial_charge self = true
      /\ exists atom,
           atom ∈ GetAtoms (w_mol (snd (_featurize self w)))
           /\ get_atom_partial_charge atom = Raise e)
  \/ (e = ValueError /\ edges_refused (w_mol w)).
Proof.
  intros Hraise.
  pose proof (_featurize_cases self w) as Hcases.
  rewrite Hraise in Hcases.
  pose proof (_featurize_effects self w) as Heff.
  rewrite _featurize_result in Hraise. rewrite _featurize_mol.
  destruct (charges_step self (w_mol w)) as [mol|e0] eqn:Hstep;
    cbn [result_bind] in Hraise.
  - unfold assemble in Hraise.
    destruct (map_result _ _) as [rows|e'] eqn:Hrows;
      cbn [result_bind] in Hraise.
    + destruct Hcases as [Hpc|Hval]; [|by right; right].
      pose proof (GraphData_init_edges rows (GetBonds mol) (use_edges self))
        as Hinit.
      rewrite Hraise in Hinit. destruct Hinit as [-> Hinit].
      right; right. split; [reflexivity|].
      destruct (charges_step_keeps_shape _ _ _ Hstep) as [Hbonds Hatoms].
      apply map_result_Ok, Forall2_length in Hrows.
      unfold edges_refused. by rewrite <- Hatoms, Hrows, <- Hbonds.
    + injection Hraise as ->.
      apply map_result_Raise in Hrows as (atom & Hin & Henc).
      right; left. split; [by eapply _construct_atom_feature_Raise|].
      exists atom. split; [exact Hin|].
      by eapply _construct_atom_feature_Raise_charge.
  - injection Hraise as ->. left.
    unfold charges_step in Hstep.
    destruct (use_partial_charge self); [|discriminate].
    destruct (probe_charge (w_mol w)); [discriminate|].
    destruct AllChem_importable; [discriminate|].
    injection Hstep as <-. done.
Qed.

(** [use_edges] decides whether the graph carries edge features and
    nothing else: with the other flags fixed, the call ends in the same
    exception or with the same node features and edge index, and leaves
    the same molecule and log. *)
Theorem use_edges_only_adds_edge_features (chir pc : bool) (w : world) :
  snd (_featurize (mkSelf true chir pc) w)
  = snd (_featurize (mkSelf false chir pc) w)
  /\ match fst (_featurize (mkSelf true chir pc) w),
           fst (_featurize (mkSelf false chir pc) w) with
     | Ok g1, Ok g0 =>
         node_features g1 = node_features g0
         /\ edge_index g1 = edge_index g0
         /\ edge_features g0 = None
         /\ edge_features g1
            = Some (bond_feature_rows (GetBonds (w_mol w)))
     | Raise e1, Raise e0 => e1 = e0
     | _, _ => False
     end.
Proof.
  split.
  - unfold _featurize, bind.
    change (ensure_partial_charges (mkSelf true chir pc))
      with (ensure_partial_charges (mkSelf false chir pc)).
    destruct (ensure_partial_charges (mkSelf false chir pc) w) as [[[]|e] w0];
      [|reflexivity].
    unfold construct_graph, bind, get_mol.
    cbn [use_chirality use_partial_charge use_edges].
    destruct (mapM _ (GetAtoms (w_mol w0)) w0) as [[rows|e] w1];
      [|reflexivity].
    by destruct (edge_lists (GetBonds (w_mol w0))).
  - rewrite !_featurize_result.
    change (charges_step (mkSelf true chir pc))
      with (charges_step (mkSelf false chir pc)).
    destruct (charges_step (mkSelf false chir pc) (w_mol w)) as [mol|e]
      eqn:Hstep; cbn [result_bind]; [|reflexivity].
    destruct (charges_step_keeps_shape _ _ _ Hstep) as [Hbonds _].
    unfold assemble. cbn [use_chirality use_partial_charge use_edges].
    destruct (map_result _ (GetAtoms mol)) as [rows|e]; cbn [result_bind];
      [|reflexivity].
    pose proof (GraphData_init_edges rows (GetBonds mol) true) as H1.
    pose proof (GraphData_init_edges rows (GetBonds mol) false) as H0.
    cbv iota in H1, H0.
    destruct (GraphData_init rows _ (Some _)) as [g1|e1],
             (GraphData_init rows _ None) as [g0|e0].
    + destruct H1 as (-> & _), H0 as (-> & _).
      cbn [node_features edge_index edge_features]. by rewrite Hbonds.
    + destruct H1 as (_ & Hne & Hall), H0 as (_ & [Hnil|Hex]); [done|].
      apply Exists_exists in Hex as (bond & Hin & Hout).
      rewrite Forall_forall in Hall. specialize (Hall bond Hin). lia.
    + destruct H0 as (_ & Hne & Hall), H1 as (_ & [Hnil|Hex]); [done|].
      apply Exists_exists in Hex as (bond & Hin & Hout).
      rewrite Forall_forall in Hall. specialize (Hall bond Hin). lia.
    + destruct H1 as (-> & _), H0 as (-> & _). reflexivity.
Qed.

(** A molecule without a bond (methane, a single ion, the molecule without
    atoms), or with a bond whose endpoint is no atom index, never yields a
    graph, whatever the flags: [GraphData] takes the largest entry of an
    edge index that has none.  Without [use_partial_charge] the exception
    is that [ValueError]. *)
Theorem no_graph_without_bonds (self : self_t) (w : world) :
  edges_refused (w_mol w) ->
  is_Ok (fst (_featurize self w)) = false
  /\ (use_partial_charge self = false ->
      fst (_featurize self w) = Raise ValueError).
Proof.
  intros Href. split; [by apply _featurize_refused|].
  intros Hpc. pose proof (_featurize_cases self w) as H.
  pose proof (_featurize_refused self w Href) as Hno.
  destruct (fst (_featurize self w)) as [g|e]; [discriminate|].
  destruct H as [H|[-> _]]; [congruence | reflexivity].
Qed.

(** Without [use_partial_charge], a molecule that has a bond and whose
    bonds all join atom indices yields a graph, with one node row per atom
    and two edge columns per bond. *)
Theorem graph_returned_when_edges_accepted (self : self_t) (w : world) :
  use_partial_charge self = false ->
  edges_accepted (w_mol w) ->
  exists g,
    fst (_featurize self w) = Ok g
    /\ length (node_features g) = length (GetAtoms (w_mol w))
    /\ Forall (fun column => length column = 2 * length (GetBonds (w_mol w)))
              (edge_index g).
Proof.
  intros Hpc Hacc.
  pose proof (_featurize_returns self w Hpc Hacc) as Hok.
  pose proof (_featurize_cases self w) as H.
  destruct (fst (_featurize self w)) as [g|e]; [|discriminate].
  exists g. split; [reflexivity|].
  destruct H as (mol & rows & Hstep & Hrows & -> & _).
  destruct (charges_step_keeps_shape _ _ _ Hstep) as [_ Hlen].
  apply Forall2_length in Hrows. cbn [node_features edge_index].
  split; [by rewrite <- Hrows|].
  rewrite edge_lists_flat. cbn [fst snd].
  repeat apply Forall_cons_2; [| |apply Forall_nil_2]; by rewrite length_pairs.
Qed.

End Featurizer.

End MolGraphConvFeaturizer.

(** ** The encoders of [deepchem.utils.molecule_feature_utils] *)

Module molecule_feature_utils.

(** Modelled from the spec: [deepchem/utils/molecule_feature_utils.py] is
    not among the sources.  A categorical encoder is a total function from
    a value to a fixed-width one-hot vector over an ordered vocabulary,
    with a trailing catch-all slot when the encoder has one. *)
Definition one_hot_encode `{EqDecision A} (val : A) (allowable_set : list A)
    (include_unknown_set : bool) : list pyfloat :=
  map (fun s => float_of_bool (bool_decide (val = s))) allowable_set
  ++ (if include_unknown_set
      then [float_of_bool (bool_decide (val ∉ allowable_set))]
      else []).

(** Modelled from the spec: the atom-type vocabulary of the class
    docstring, without its "other atoms" slot. *)
Definition DEFAULT_ATOM_TYPE_SET : list string :=
  ["C"; "N"; "O"; "F"; "P"; "S"; "Cl"; "Br"; "I"].

(** Modelled from the spec: the hybridizations "sp", "sp2", "sp3". *)
Definition DEFAULT_HYBRIDIZATION_SET : list string := ["SP"; "SP2"; "SP3"].

(** Modelled from the spec: the degrees 0-5. *)
Definition DEFAULT_TOTAL_DEGREE_SET : list nat := [0; 1; 2; 3; 4; 5].

(** Modelled from the spec: the hydrogen counts 0-4. *)
Definition DEFAULT_TOTAL_NUM_Hs_SET : list nat := [0; 1; 2; 3; 4].

(** Modelled from the spec: the bond types "single", "double", "triple",
    "aromatic". *)
Definition DEFAULT_BOND_TYPE_SET : list string :=
  ["SINGLE"; "DOUBLE"; "TRIPLE"; "AROMATIC"].

(** Modelled from the spec: the fixed vocabulary of stereo descriptors. *)
Definition DEFAULT_BOND_STEREO_SET : list string :=
  ["STEREONONE"; "STEREOANY"; "STEREOZ"; "STEREOE"].

(** Modelled from the spec: type one-hot over the symbol vocabulary plus an
    "other" bucket. *)
Definition get_atom_type_one_hot (atom : RDKitAtom) : list pyfloat :=
  one_hot_encode (GetSymbol atom) DEFAULT_ATOM_TYPE_SET true.

(** Modelled from the spec: the formal charge, one scalar. *)
Definition get_atom_formal_charge (atom : RDKitAtom) : list pyfloat :=
  [float_of_int (GetFormalCharge atom)].

(** Modelled from the spec: hybridization one-hot (sp/sp2/sp3). *)
Definition get_atom_hybridization_one_hot (atom : RDKitAtom) : list pyfloat :=
  one_hot_encode (GetHybridization atom) DEFAULT_HYBRIDIZATION_SET false.

(** Modelled from the spec: donor/acceptor one-hot, looked up from the
    per-molecule role list; neither by default. *)
Definition get_atom_hydrogen_bonding_one_hot (atom : RDKitAtom)
    (hydrogen_bonding : list (nat * string)) : list pyfloat :=
  [float_of_bool (bool_decide ((GetIdx atom, "Donor") ∈ hydrogen_bonding));
   float_of_bool (bool_decide ((GetIdx atom, "Acceptor") ∈ hydrogen_bonding))].

(** Modelled from the spec: the aromaticity flag. *)
Definition get_atom_is_in_aromatic_one_hot (atom : RDKitAtom) : list pyfloat :=
  [float_of_bool (GetIsAromatic atom)].

(** Modelled from the spec: degree one-hot, buckets 0-5 and an "other"
    bucket. *)
Definition get_atom_total_degree_one_hot (atom : RDKitAtom) : list pyfloat :=
  one_hot_encode (GetTotalDegree atom) DEFAULT_TOTAL_DEGREE_SET true.

(** Modelled from the spec: hydrogen-count one-hot, buckets 0-4 and the
    catch-all that brings the default atom width to the documented 30. *)
Definition get_atom_total_num_Hs_one_hot (atom : RDKitAtom) : list pyfloat :=
  one_hot_encode (GetTotalNumHs atom) DEFAULT_TOTAL_NUM_Hs_SET true.

(** Modelled from the spec: chirality one-hot over "R" and "S", read from
    the atom's [_CIPCode] property; all zero without one. *)
Definition get_atom_chirality_one_hot (atom : RDKitAtom) : list pyfloat :=
  match GetProp atom "_CIPCode" with
  | Ok chiral_type => one_hot_encode chiral_type ["R"; "S"] false
  | Raise _ => [float_of_int 0; float_of_int 0]
  end.

(** Modelled from the spec: the partial charge (scalar, NaN mapped to 0),
    read from the atom's [_GasteigerCharge] property. *)
Definition get_atom_partial_charge (atom : RDKitAtom) : result (list pyfloat) :=
  (gasteiger_charge <- GetProp atom "_GasteigerCharge" ;;
   if bool_decide (gasteiger_charge ∈ ["-nan"; "nan"; "-inf"; "inf"])
   then Ok [float_of_int 0]
   else Ok [float_of_str gasteiger_charge])%res.

(** Modelled from the spec: bond-order one-hot
    (single/double/triple/aromatic). *)
Definition get_bond_type_one_hot (bond : RDKitBond) : list pyfloat :=
  one_hot_encode (GetBondType bond) DEFAULT_BOND_TYPE_SET false.

(** Modelled from the spec: same-ring-membership flag. *)
Definition get_bond_is_in_same_ring_one_hot (bond : RDKitBond) : list pyfloat :=
  [float_of_bool (IsInRing bond)].

(** Modelled from the spec: conjugation flag. *)
Definition get_bond_is_conjugated_one_hot (bond : RDKitBond) : list pyfloat :=
  [float_of_bool (GetIsConjugated bond)].

(** Modelled from the spec: stereo one-hot over the fixed descriptors and an
    "other" bucket. *)
Definition get_bond_stereo_one_hot (bond : RDKitBond) : list pyfloat :=
  one_hot_encode (GetStereo bond) DEFAULT_BOND_STEREO_SET true.

Lemma one_hot_encode_length `{EqDecision A} (val : A) (allowable_set : list A)
    (include_unknown_set : bool) :
  length (one_hot_encode val allowable_set include_unknown_set)
  = length allowable_set + (if include_unknown_set then 1 else 0).
Proof.
  unfold one_hot_encode. rewrite length_app, length_map.
  by destruct include_unknown_set.
Qed.

Lemma get_atom_chirality_one_hot_length (atom : RDKitAtom) :
  length (get_atom_chirality_one_hot atom) = 2.
Proof.
  unfold get_atom_chirality_one_hot. destruct (GetProp atom "_CIPCode").
  - by rewrite one_hot_encode_length.
  - reflexivity.
Qed.

Lemma get_atom_partial_charge_length (atom : RDKitAtom) (v : list pyfloat) :
  get_atom_partial_charge atom = Ok v -> length v = 1.
Proof.
  unfold get_atom_partial_charge.
  destruct (GetProp atom "_GasteigerCharge") as [c|e]; cbn [result_bind];
    [|discriminate].
  case_bool_decide; by intros [= <-].
Qed.

End molecule_feature_utils.

(** ** The featurizer on RDKit molecules *)

Module Examples.

Import molecule_feature_utils.

(** A carbon of cyclobutane: sp3, two ring neighbours and two hydrogens. *)
Definition ring_carbon (idx : nat) : RDKitAtom :=
  mkAtom idx "C" 0 "SP3" false 4 2 ∅.

Definition ring_bond (a b : nat) : RDKitBond :=
  mkBond a b "SINGLE" true false "STEREONONE".

(** The molecule of the SMILES string [C1CCC1]. *)
Definition cyclobutane : RDKitMol :=
  mkMol [ring_carbon 0; ring_carbon 1; ring_carbon 2; ring_carbon 3]
        [ring_bond 0 1; ring_bond 1 2; ring_bond 2 3; ring_bond 3 0].

(** A hydrocarbon has no hydrogen-bond donors or acceptors. *)
Definition no_hydrogen_bonding (mol : RDKitMol) : list (nat * string) := [].

(** The charges RDKit writes on the carbons of an unsubstituted ring, and
    on their hydrogens. *)
Definition ring_charge (mol : RDKitMol) (atom : RDKitAtom) : string :=
  "-0.053".
Definition ring_h_charge (mol : RDKitMol) (atom : RDKitAtom) : string :=
  "0.053".

(** [MolGraphConvFeaturizer._featurize] with the encoders above. *)
Definition featurize (AllChem_importable : bool)
  : MolGraphConvFeaturizer.self_t -> M (GraphData (list (list pyfloat))) :=
  MolGraphConvFeaturizer._featurize
    get_atom_type_one_hot get_atom_formal_charge
    get_atom_hybridization_one_hot no_hydrogen_bonding
    get_atom_hydrogen_bonding_one_hot get_atom_is_in_aromatic_one_hot
    get_atom_total_degree_one_hot get_atom_total_num_Hs_one_hot
    get_atom_chirality_one_hot get_atom_partial_charge
    get_bond_type_one_hot get_bond_is_in_same_ring_one_hot
    get_bond_is_conjugated_one_hot get_bond_stereo_one_hot
    AllChem_importable ring_charge ring_h_charge.

(** The docstring's example: with [use_edges], [C1CCC1] gives 4 node rows of
    30 features, a 2 x 8 edge index and 8 edge rows of 11 features. *)
Example cyclobutane_shapes :
  exists g,
    fst (featurize true (MolGraphConvFeaturizer.__init__ true false false)
           (mkWorld cyclobutane [])) = Ok g
    /\ map length (node_features g) = [30; 30; 30; 30]
    /\ edge_index g = [[0; 1; 1; 2; 2; 3; 3; 0]; [1; 0; 2; 1; 3; 2; 0; 3]]
    /\ (map length <$> edge_features g) = Some [11; 11; 11; 11; 11; 11; 11; 11].
Proof. eexists. split; [vm_compute; reflexivity|]. by vm_compute. Qed.

(** Without RDKit's charge module the partial-charge path raises. *)
Example cyclobutane_no_AllChem :
  featurize false (MolGraphConvFeaturizer.__init__ false false true)
    (mkWorld cyclobutane [])
  = (Raise ImportError, mkWorld cyclobutane []).
Proof. by vm_compute. Qed.

(** The node features of cyclobutane with chirality and partial charge:
    four rows of 30 + 2 + 1 numbers. *)
Lemma node_features_shape_witness :
  exists g,
    fst (featurize true (MolGraphConvFeaturizer.__init__ false true true)
           (mkWorld cyclobutane [])) = Ok g
    /\ length (node_features g) = 4
    /\ forall i row, node_features g !! i = Some row -> length row = 33.
Proof.
  pose proof
    (MolGraphConvFeaturizer.node_features_shape
       get_atom_type_one_hot get_atom_formal_charge
       get_atom_hybridization_one_hot no_hydrogen_bonding
       get_atom_hydrogen_bonding_one_hot get_atom_is_in_aromatic_one_hot
       get_atom_total_degree_one_hot get_atom_total_num_Hs_one_hot
       get_atom_chirality_one_hot get_atom_partial_charge
       get_bond_type_one_hot get_bond_is_in_same_ring_one_hot
       get_bond_is_conjugated_one_hot get_bond_stereo_one_hot
       true ring_charge ring_h_charge
       (fun a => eq_refl) (fun a => eq_refl) (fun a => eq_refl)
       (fun a infos => eq_refl) (fun a => eq_refl) (fun a => eq_refl)
       (fun a => eq_refl)
       2 get_atom_chirality_one_hot_length get_atom_partial_charge_length
       (MolGraphConvFeaturizer.__init__ false true true)
       (mkWorld cyclobutane [])) as H.
  unfold featurize.
  destruct (fst (MolGraphConvFeaturizer._featurize _ _ _ _ _ _ _ _ _ _ _ _ _ _ _ _ _ _ _))
    as [g|e] eqn:E.
  - exists g. split; [reflexivity|]. destruct H as [Hlen Hrows].
    split; [exact Hlen|]. intros i row Hi. exact (proj1 (Hrows i row Hi)).
  - vm_compute in E. discriminate E.
Defined.

(** Cyclobutane arrives without charges: they are computed once, then the
    four carbons are encoded. *)
Lemma charges_computed_once_witness :
  MolGraphConvFeaturizer.use_partial_charge
    (MolGraphConvFeaturizer.__init__ false false true) = true
  /\ is_Ok (MolGraphConvFeaturizer.probe_charge cyclobutane) = false
  /\ (w_mol (snd (featurize true
                    (MolGraphConvFeaturizer.__init__ false false true)
                    (mkWorld cyclobutane [])))
      = MolGraphConvFeaturizer.annotate_charges ring_charge ring_h_charge cyclobutane
      /\ exists n,
           w_trace (snd (featurize true
                           (MolGraphConvFeaturizer.__init__ false false true)
                           (mkWorld cyclobutane [])))
           = [] ++ ComputeGasteigerCharges_called
               :: map (fun a => construct_atom_feature_called (GetIdx a))
                      (take n (GetAtoms cyclobutane))
           /\ (is_Ok (fst (featurize true
                             (MolGraphConvFeaturizer.__init__ false false true)
                             (mkWorld cyclobutane []))) = true ->
               n = 4)).
Proof.
  split; [reflexivity|]. split; [reflexivity|].
  exact (MolGraphConvFeaturizer.charges_computed_once_before_atoms
           get_atom_type_one_hot get_atom_formal_charge
           get_atom_hybridization_one_hot no_hydrogen_bonding
           get_atom_hydrogen_bonding_one_hot get_atom_is_in_aromatic_one_hot
           get_atom_total_degree_one_hot get_atom_total_num_Hs_one_hot
           get_atom_chirality_one_hot get_atom_partial_charge
           get_bond_type_one_hot get_bond_is_in_same_ring_one_hot
           get_bond_is_conjugated_one_hot get_bond_stereo_one_hot
           true ring_charge ring_h_charge
           (MolGraphConvFeaturizer.__init__ false false true)
           (mkWorld cyclobutane []) eq_refl eq_refl).
Defined.


(** *** The further theorems at cyclobutane *)

(** The eight edge rows of cyclobutane have 11 entries each. *)
Lemma edge_features_width_witness :
  match fst (featurize true (MolGraphConvFeaturizer.__init__ true false false)
               (mkWorld cyclobutane [])) with
  | Ok g =>
      forall rows,
        edge_features g = Some rows ->
        Forall (fun row => length row = 11) rows
        /\ Forall (fun column => length column = length rows) (edge_index g)
  | Raise _ => False
  end.
Proof.
  pose proof
    (MolGraphConvFeaturizer.edge_features_width
       get_atom_type_one_hot get_atom_formal_charge
       get_atom_hybridization_one_hot no_hydrogen_bonding
       get_atom_hydrogen_bonding_one_hot get_atom_is_in_aromatic_one_hot
       get_atom_total_degree_one_hot get_atom_total_num_Hs_one_hot
       get_atom_chirality_one_hot get_atom_partial_charge
       get_bond_type_one_hot get_bond_is_in_same_ring_one_hot
       get_bond_is_conjugated_one_hot get_bond_stereo_one_hot
       true ring_charge ring_h_charge
       (fun b => eq_refl) (fun b => eq_refl) (fun b => eq_refl)
       (fun b => eq_refl)
       (MolGraphConvFeaturizer.__init__ true false false)
       (mkWorld cyclobutane [])) as H.
  unfold featurize.
  destruct (fst (MolGraphConvFeaturizer._featurize _ _ _ _ _ _ _ _ _ _ _ _ _ _ _ _ _ _ _))
    as [g|e] eqn:E.
  - exact H.
  - vm_compute in E. discriminate E.
Defined.

(** With the default flags nothing is computed on cyclobutane. *)
Lemma no_charge_computation_witness :
  w_mol (snd (featurize true MolGraphConvFeaturizer.default_self
                (mkWorld cyclobutane []))) = cyclobutane
  /\ exists n,
       w_trace (snd (featurize true MolGraphConvFeaturizer.default_self
                       (mkWorld cyclobutane [])))
       = [] ++ map (fun a => construct_atom_feature_called (GetIdx a))
                   (take n (GetAtoms cyclobutane))
       /\ (is_Ok (fst (featurize true MolGraphConvFeaturizer.default_self
                         (mkWorld cyclobutane []))) = true ->
           n = 4).
Proof.
  exact (MolGraphConvFeaturizer.no_charge_computation
           get_atom_type_one_hot get_atom_formal_charge
           get_atom_hybridization_one_hot no_hydrogen_bonding
           get_atom_hydrogen_bonding_one_hot get_atom_is_in_aromatic_one_hot
           get_atom_total_degree_one_hot get_atom_total_num_Hs_one_hot
           get_atom_chirality_one_hot get_atom_partial_charge
           get_bond_type_one_hot get_bond_is_in_same_ring_one_hot
           get_bond_is_conjugated_one_hot get_bond_stereo_one_hot
           true ring_charge ring_h_charge
           MolGraphConvFeaturizer.default_self
           (mkWorld cyclobutane []) (or_introl eq_refl)).
Defined.

(** Cyclobutane featurized twice with partial charges: the second call
    logs its four atom encodings and no charge computation. *)
Lemma second_call_computes_nothing_witness :
  GetAtoms cyclobutane <> []
  /\ w_trace
       (snd (featurize true (MolGraphConvFeaturizer.__init__ false false true)
               (snd (featurize true
                       (MolGraphConvFeaturizer.__init__ false false true)
                       (mkWorld cyclobutane [])))))
     = [ComputeGasteigerCharges_called;
        construct_atom_feature_called 0; construct_atom_feature_called 1;
        construct_atom_feature_called 2; construct_atom_feature_called 3;
        construct_atom_feature_called 0; construct_atom_feature_called 1;
        construct_atom_feature_called 2; construct_atom_feature_called 3].
Proof.
  assert (GetAtoms cyclobutane <> []) as Hatoms by discriminate.
  split; [exact Hatoms|].
  unfold featurize.
  rewrite (MolGraphConvFeaturizer.second_call_computes_nothing
             get_atom_type_one_hot get_atom_formal_charge
             get_atom_hybridization_one_hot no_hydrogen_bonding
             get_atom_hydrogen_bonding_one_hot get_atom_is_in_aromatic_one_hot
             get_atom_total_degree_one_hot get_atom_total_num_Hs_one_hot
             get_atom_chirality_one_hot get_atom_partial_charge
             get_bond_type_one_hot get_bond_is_in_same_ring_one_hot
             get_bond_is_conjugated_one_hot get_bond_stereo_one_hot
             true ring_charge ring_h_charge
             (MolGraphConvFeaturizer.__init__ false false true)
             (mkWorld cyclobutane []) Hatoms eq_refl).
  reflexivity.
Defined.

(** Without RDKit's charge module, the exception of the partial-charge
    path on cyclobutane is the [ImportError] of the first way. *)
Lemma featurize_exceptions_witness :
  fst (featurize false (MolGraphConvFeaturizer.__init__ false false true)
         (mkWorld cyclobutane [])) = Raise ImportError
  /\ ((MolGraphConvFeaturizer.use_partial_charge
         (MolGraphConvFeaturizer.__init__ false false true) = true
       /\ ImportError = ImportError
       /\ false = false
       /\ is_Ok (MolGraphConvFeaturizer.probe_charge cyclobutane) = false
       /\ snd (featurize false
                 (MolGraphConvFeaturizer.__init__ false false true)
                 (mkWorld cyclobutane []))
          = mkWorld cyclobutane [])
      \/ (MolGraphConvFeaturizer.use_partial_charge
            (MolGraphConvFeaturizer.__init__ false false true) = true
          /\ exists atom,
               atom ∈ GetAtoms
                        (w_mol (snd (featurize false
                                       (MolGraphConvFeaturizer.__init__
                                          false false true)
                                       (mkWorld cyclobutane []))))
               /\ get_atom_partial_charge atom = Raise ImportError)
      \/ (ImportError = ValueError
          /\ MolGraphConvFeaturizer.edges_refused cyclobutane)).
Proof.
  split; [reflexivity|].
  exact (MolGraphConvFeaturizer.featurize_exceptions
           get_atom_type_one_hot get_atom_formal_charge
           get_atom_hybridization_one_hot no_hydrogen_bonding
           get_atom_hydrogen_bonding_one_hot get_atom_is_in_aromatic_one_hot
           get_atom_total_degree_one_hot get_atom_total_num_Hs_one_hot
           get_atom_chirality_one_hot get_atom_partial_charge
           get_bond_type_one_hot get_bond_is_in_same_ring_one_hot
           get_bond_is_conjugated_one_hot get_bond_stereo_one_hot
           false ring_charge ring_h_charge
           (MolGraphConvFeaturizer.__init__ false false true)
           (mkWorld cyclobutane []) ImportError eq_refl).
Defined.

(** The molecule without atoms has no bond either. *)
Example empty_molecule_ValueError :
  fst (featurize true (MolGraphConvFeaturizer.__init__ true false false)
         (mkWorld (mkMol [] []) [])) = Raise ValueError.
Proof. reflexivity. Qed.

(** Methane, [C]: one carbon with four hydrogens and no bond. *)
Definition methane : RDKitMol := mkMol [mkAtom 0 "C" 0 "SP3" false 4 4 ∅] [].

(** Methane has no bond: the default featurizer raises [ValueError]. *)
Lemma no_graph_without_bonds_witness :
  MolGraphConvFeaturizer.edges_refused methane
  /\ is_Ok (fst (featurize true MolGraphConvFeaturizer.default_self
                   (mkWorld methane []))) = false
  /\ fst (featurize true MolGraphConvFeaturizer.default_self
            (mkWorld methane [])) = Raise ValueError.
Proof.
  assert (MolGraphConvFeaturizer.edges_refused methane) as Href
    by (left; reflexivity).
  split; [exact Href|].
  destruct (MolGraphConvFeaturizer.no_graph_without_bonds
              get_atom_type_one_hot get_atom_formal_charge
              get_atom_hybridization_one_hot no_hydrogen_bonding
              get_atom_hydrogen_bonding_one_hot get_atom_is_in_aromatic_one_hot
              get_atom_total_degree_one_hot get_atom_total_num_Hs_one_hot
              get_atom_chirality_one_hot get_atom_partial_charge
              get_bond_type_one_hot get_bond_is_in_same_ring_one_hot
              get_bond_is_conjugated_one_hot get_bond_stereo_one_hot
              true ring_charge ring_h_charge
              MolGraphConvFeaturizer.default_self
              (mkWorld methane []) Href) as [Hno Hvalue].
  split; [exact Hno | exact (Hvalue eq_refl)].
Defined.

(** Cyclobutane has four bonds between its four atoms: the default
    featurizer returns a graph of four node rows and eight edge columns. *)
Lemma graph_returned_when_edges_accepted_witness :
  MolGraphConvFeaturizer.edges_accepted cyclobutane
  /\ exists g,
       fst (featurize true MolGraphConvFeaturizer.default_self
              (mkWorld cyclobutane [])) = Ok g
       /\ length (node_features g) = 4
       /\ Forall (fun column => length column = 8) (edge_index g).
Proof.
  assert (MolGraphConvFeaturizer.edges_accepted cyclobutane) as Hacc.
  { split; [discriminate|].
    apply (bool_decide_unpack _); vm_compute; exact I. }
  split; [exact Hacc|].
  exact (MolGraphConvFeaturizer.graph_returned_when_edges_accepted
           get_atom_type_one_hot get_atom_formal_charge
           get_atom_hybridization_one_hot no_hydrogen_bonding
           get_atom_hydrogen_bonding_one_hot get_atom_is_in_aromatic_one_hot
           get_atom_total_degree_one_hot get_atom_total_num_Hs_one_hot
           get_atom_chirality_one_hot get_atom_partial_charge
           get_bond_type_one_hot get_bond_is_in_same_ring_one_hot
           get_bond_is_conjugated_one_hot get_bond_stereo_one_hot
           true ring_charge ring_h_charge
           MolGraphConvFeaturizer.default_self
           (mkWorld cyclobutane []) eq_refl Hacc).
Defined.

End Examples.

(** ** The path-aware featurizer *)

Module PAGTNFeaturizer.

(** *** Names and calls *)

(** The names the file binds at module level: its imports (lines 1-20 and
    222-224), its two functions and its two classes. *)
Definition module_globals : list string :=
  ["List"; "Tuple"; "np"; "RDKitAtom"; "RDKitBond"; "RDKitMol"; "GraphData";
   "MolecularFeaturizer"; "get_atom_type_one_hot";
   "construct_hydrogen_bonding_info"; "get_atom_hydrogen_bonding_one_hot";
   "get_atom_hybridization_one_hot"; "get_atom_total_num_Hs_one_hot";
   "get_atom_is_in_aromatic_one_hot"; "get_atom_chirality_one_hot";
   "get_atom_formal_charge"; "get_atom_partial_charge";
   "get_atom_total_degree_one_hot"; "get_bond_type_one_hot";
   "get_bond_is_in_same_ring_one_hot"; "get_bond_is_conjugated_one_hot";
   "get_bond_stereo_one_hot"; "_construct_atom_feature";
   "_construct_bond_feature"; "MolGraphConvFeaturizer"; "PAGTNFeaturizer"].

(** The builtins the methods use.  None of the names whose binding is in
    question below is a builtin of Python. *)
Definition builtins : list string :=
  ["len"; "range"; "list"; "ImportError"; "True"; "False"; "None"].

(** The names [__init__] binds: its parameters and its imports.  They are
    gone when [__init__] returns. *)
Definition __init___locals : list string :=
  ["self"; "max_length"; "Chem"; "ConcatFeaturizer";
   "atom_formal_charge_one_hot"; "atom_type_one_hot"; "atom_degree_one_hot";
   "atom_explicit_valence_one_hot"; "atom_implicit_valence_one_hot";
   "atom_is_aromatic"; "partial"; "one_hot_encoding"; "bond_type_one_hot";
   "bond_is_conjugated"; "bond_is_in_ring"].

(** The parameters and assigned names of the other methods. *)
Definition PAGTNAtomFeaturizer_params : list string := ["atom"].
Definition PAGTNAtomFeaturizer_locals : list string :=
  PAGTNAtomFeaturizer_params
  ++ ["atom_type"; "formal_charge"; "degree"; "exp_valence"; "imp_valence";
      "armoticity"; "atom_feat"].
Definition bond_features_locals : list string :=
  ["self"; "mol"; "path_atoms"; "ring_info"; "features"; "path_bonds";
   "path_length"; "path_idx"; "bond"; "warnings"; "position_feature";
   "rfeat"; "r"].
Definition PAGTNBondFeaturizer_locals : list string :=
  ["self"; "mol"; "n_atoms"; "paths_dict"; "rings_dict"; "feats"; "src";
   "dest"; "i"; "j"; "ring_info"].

(** Reading a name inside a function: it is found among the function's own
    names, the module's or the builtins, or the read raises [NameError].
    [value] is what the name stands for when it is bound. *)
Definition resolve {A} (locals globals : list string) (name : string)
    (value : A) : result A :=
  if bool_decide (name ∈ locals ++ globals ++ builtins) then Ok value
  else Raise NameError.

(** The featurizer instance: the attributes [__init__] sets. *)
Record self_t := mkSelf {
  SYMBOLS : list string;
  RING_TYPES : list (nat * bool);
  ordered_pair : nat -> nat -> nat * nat;
  bond_featurizer : RDKitBond -> list bool;
  max_length : nat
}.

(** The objects that are passed around in [_featurize]. *)
Inductive pyobj :=
| PyFeaturizer (self : self_t)
| PyMol (mol : RDKitMol)
| PyAtom (atom : RDKitAtom).

(** A call binds one positional argument to each declared parameter, or
    raises [TypeError]. *)
Definition bind_params (params : list string) (args : list pyobj)
  : result (gmap string pyobj) :=
  if decide (length args = length params)
  then Ok (list_to_map (zip params args))
  else Raise TypeError.

(** [self.method(args)]: the instance is passed first. *)
Definition bind_method_params (params : list string) (self : self_t)
    (args : list pyobj) : result (gmap string pyobj) :=
  bind_params params (PyFeaturizer self :: args).

(** Reading a parameter. *)
Definition local (locals : gmap string pyobj) (name : string) : result pyobj :=
  match locals !! name with
  | Some v => Ok v
  | None => Raise NameError
  end.

(** Using an object as an atom, or as a featurizer. *)
Definition as_atom (o : pyobj) : result RDKitAtom :=
  match o with PyAtom a => Ok a | _ => Raise AttributeError end.
Definition as_featurizer (o : pyobj) : result self_t :=
  match o with PyFeaturizer s => Ok s | _ => Raise AttributeError end.

(** [a[i] = v] on a numpy vector. *)
Definition set_item (a : list pyfloat) (i : nat) (v : pyfloat)
  : result (list pyfloat) :=
  if decide (i < length a)%nat then Ok (<[i := v]> a) else Raise IndexError.

(** [np.any(rows, axis=0)]: the column-wise disjunction. *)
Definition np_any_axis0 (rows : list (list bool)) : list bool :=
  match rows with
  | [] => []
  | r :: rs => fold_left (zip_with orb) rs r
  end.

(** A loop that threads its variables and stops at an exception. *)
Fixpoint foldM {A S} (f : S -> A -> result S) (l : list A) (s : S) : result S :=
  match l with
  | [] => Ok s
  | x :: l' => (s' <- f s x ;; foldM f l' s')%res
  end.

(** What [one_hot_encoding] is called with in [bond_features]: one ring
    type, or (when the pair shares no ring) the empty [ring_info] itself. *)
Inductive ring_query :=
| a_ring (r : nat * bool)
| a_ring_list (l : list (nat * bool)).

(** The module [utils] that [PAGTNBondFeaturizer] asks for the paths and
    the rings of a molecule. *)
Record utils_t := mkUtils {
  compute_all_pairs_shortest_path : RDKitMol -> gmap (nat * nat) (list nat);
  compute_pairwise_ring_info :
    RDKitMol -> gmap (nat * nat) (list (nat * bool))
}.

Section Featurizer.

(** DGL-LifeSci: whether the imports of [__init__] succeed, the
    [ConcatFeaturizer] of bond type, conjugation and ring membership, and
    [one_hot_encoding]. *)
Variable dgllife_importable : bool.
Variable ConcatFeaturizer_bond : RDKitBond -> list bool.
Variable one_hot_encoding : ring_query -> list (nat * bool) -> list bool.

(** What the names [utils] and [self] stand for wherever they are bound
    outside a method's own parameters. *)
Variable utils : utils_t.
Variable global_self : pyobj.

(** The atom encoders, called with explicit vocabularies. *)
Variable get_atom_type_one_hot : RDKitAtom -> list string -> bool -> list pyfloat.
Variable get_atom_formal_charge : RDKitAtom -> list pyfloat.
Variable get_atom_total_degree_one_hot : RDKitAtom -> nat -> bool -> list pyfloat.
Variable atom_explicit_valence_one_hot :
  RDKitAtom -> list nat -> bool -> list pyfloat.
Variable get_atom_implicit_valence_one_hot :
  RDKitAtom -> list nat -> bool -> list pyfloat.
Variable get_atom_is_in_aromatic_one_hot : RDKitAtom -> list pyfloat.

(** Lines 229-256.  The [max_length] argument is not used. *)
Definition __init__ (max_length : nat) : result self_t :=
  if dgllife_importable then
    Ok (mkSelf
          ["C"; "N"; "O"; "S"; "F"; "Si"; "P"; "Cl"; "Br"; "Mg"; "Na"; "Ca";
           "Fe"; "As"; "Al"; "I"; "B"; "V"; "K"; "Tl"; "Yb"; "Sb"; "Sn";
           "Ag"; "Pd"; "Co"; "Se"; "Ti"; "Zn"; "H"; "Li"; "Ge"; "Cu"; "Au";
           "Ni"; "Cd"; "In"; "Mn"; "Zr"; "Cr"; "Pt"; "Hg"; "Pb"; "W"; "Ru";
           "Nb"; "Re"; "Te"; "Rh"; "Tc"; "Ba"; "Bi"; "Hf"; "Mo"; "U"; "Sm";
           "Os"; "Ir"; "Ce"; "Gd"; "Ga"; "Cs"; "*"; "UNK"]
          [(5, false); (5, true); (6, false); (6, true)]
          (fun a b => if Nat.ltb a b then (a, b) else (b, a))
          ConcatFeaturizer_bond
          5)
  else Raise ImportError.

(** Lines 258-268, run on the parameters a call has bound. *)
Definition PAGTNAtomFeaturizer (globals : list string)
    (locals : gmap string pyobj) : result (list pyfloat) :=
  let resolve {A} := @resolve A PAGTNAtomFeaturizer_locals globals in
  (get_type <- resolve "get_atom_type_one_hot" get_atom_type_one_hot ;;
   atom <- local locals "atom" ;;
   self <- resolve "self" global_self ;;
   self <- as_featurizer self ;;
   atom <- as_atom atom ;;
   let atom_type := get_type atom (SYMBOLS self) false in
   get_charge <- resolve "get_atom_formal_charge" get_atom_formal_charge ;;
   let formal_charge := get_charge atom in
   get_degree <-
     resolve "get_atom_total_degree_one_hot" get_atom_total_degree_one_hot ;;
   let degree := get_degree atom 10 false in
   get_exp <-
     resolve "atom_explicit_valence_one_hot" atom_explicit_valence_one_hot ;;
   let exp_valence := get_exp atom (seq 0 7) false in
   get_imp <-
     resolve "get_atom_implicit_valence_one_hot"
       get_atom_implicit_valence_one_hot ;;
   let imp_valence := get_imp atom (seq 0 6) false in
   get_aromatic <-
     resolve "get_atom_is_in_aromatic_one_hot"
       get_atom_is_in_aromatic_one_hot ;;
   let armoticity := get_aromatic atom in
   Ok (atom_type ++ formal_charge ++ degree ++ exp_valence ++ imp_valence
         ++ armoticity))%res.

(** [self.bond_featurizer(bond)]; DGL-LifeSci reads the bond's attributes,
    which [None] does not have. *)
Definition call_bond_featurizer (self : self_t) (bond : option RDKitBond)
  : result (list pyfloat) :=
  match bond with
  | Some b => Ok (map float_of_bool (bond_featurizer self b))
  | None => Raise AttributeError
  end.

(** Lines 283-290: the bonds along the path ([None] where two consecutive
    atoms are not bonded; the warning changes nothing). *)
Definition path_bonds_of (mol : RDKitMol) (path_atoms : list nat)
  : list (option RDKitBond) :=
  map (fun path_idx =>
         GetBondBetweenAtoms mol (path_atoms !!! path_idx)
                                 (path_atoms !!! (path_idx + 1)))
      (seq 0 (length path_atoms - 1)).

(** Lines 292-296: one block per path slot. *)
Definition path_blocks (self : self_t) (path_bonds : list (option RDKitBond))
  : result (list (list pyfloat)) :=
  map_result
    (fun path_idx =>
       if Nat.ltb path_idx (length path_bonds)
       then call_bond_featurizer self (path_bonds !!! path_idx)
       else Ok (replicate 6 (float_of_int 0)))
    (seq 0 (max_length self)).

(** Lines 298-301: the path-length indicator. *)
Definition position_feature (self : self_t) (path_length : nat)
  : result (list pyfloat) :=
  let path_length :=
    if Nat.ltb (max_length self) (path_length + 1)
    then max_length self + 1
    else path_length in
  set_item (np_zeros (max_length self + 2)) path_length (float_of_int 1).

(** Lines 303-312: the ring block, with its leading flag. *)
Definition ring_feature (globals : list string) (self : self_t)
    (ring_info : list (nat * bool)) : result (list bool) :=
  let resolve {A} := @resolve A bond_features_locals globals in
  match ring_info with
  | _ :: _ =>
      (encode <- resolve "one_hot_encoding" one_hot_encoding ;;
       let rfeat := map (fun r => encode (a_ring r) (RING_TYPES self)) ring_info in
       Ok (true :: np_any_axis0 rfeat))%res
  | [] =>
      (* This will return a boolean vector with all entries False *)
      (encode <- resolve "one_hot_encoding" one_hot_encoding ;;
       Ok (false :: encode (a_ring_list ring_info) (RING_TYPES self)))%res
  end.

(** Lines 270-313. *)
Definition bond_features (globals : list string) (self : self_t)
    (mol : RDKitMol) (path_atoms : list nat) (ring_info : list (nat * bool))
  : result (list pyfloat) :=
  let path_length := length path_atoms in
  let path_bonds := path_bonds_of mol path_atoms in
  (features <- path_blocks self path_bonds ;;
   position_feature <- position_feature self path_length ;;
   let features := features ++ [position_feature] in
   rfeat <- ring_feature globals self ring_info ;;
   let features := features ++ [map float_of_bool rfeat] in
   Ok (concat features))%res.

(** Lines 339-346: the body of the double loop, for one pair. *)
Definition pair_step (globals : list string) (self : self_t) (mol : RDKitMol)
    (paths_dict : gmap (nat * nat) (list nat))
    (rings_dict : gmap (nat * nat) (list (nat * bool)))
    (i : nat) (state : list nat * list nat * list (list pyfloat)) (j : nat)
  : result (list nat * list nat * list (list pyfloat)) :=
  let '(src, dest, feats) := state in
  let src := src ++ [i] in
  let dest := dest ++ [j] in
  match paths_dict !! (i, j) with
  | None => Ok (src, dest, feats ++ [np_zeros (7 * max_length self + 7)])
  | Some path_atoms =>
      let ring_info := default [] (rings_dict !! ordered_pair self i j) in
      (row <- bond_features globals self mol path_atoms ring_info ;;
       Ok (src, dest, feats ++ [row]))%res
  end.

(** Lines 315-348. *)
Definition PAGTNBondFeaturizer (globals : list string) (self : self_t)
    (mol : RDKitMol) : result (list (list nat) * list (list pyfloat)) :=
  let resolve {A} := @resolve A PAGTNBondFeaturizer_locals globals in
  let n_atoms := GetNumAtoms mol in
  (utils <- resolve "utils" utils ;;
   let paths_dict := compute_all_pairs_shortest_path utils mol in
   utils <- resolve "utils" utils ;;
   let rings_dict := compute_pairwise_ring_info utils mol in
   state <-
     foldM (fun state i =>
              foldM (pair_step globals self mol paths_dict rings_dict i)
                    (seq 0 n_atoms) state)
           (seq 0 n_atoms) ([], [], []) ;;
   let '(src, dest, feats) := state in
   Ok ([src; dest], feats))%res.

(** Lines 350-354. *)
Definition _featurize (globals : list string) (self : self_t) (mol : RDKitMol)
  : result (GraphData (list pyfloat)) :=
  (node_features <-
     (locals <- bind_method_params PAGTNAtomFeaturizer_params self [PyMol mol] ;;
      PAGTNAtomFeaturizer globals locals) ;;
   edges <- PAGTNBondFeaturizer globals self mol ;;
   let '(edge_index, edge_features) := edges in
   Ok (mkGraphData node_features edge_index (Some edge_features)))%res.

(** *** Which names the methods can read *)

Lemma resolve_bound {A} (locals globals : list string) (name : string)
    (value : A) :
  name ∈ globals -> resolve locals globals name value = Ok value.
Proof.
  intros Hin. unfold resolve. rewrite bool_decide_eq_true_2; [done|].
  rewrite !elem_of_app. auto.
Qed.

(** A name is in none of the scopes: by running the membership test. *)
Ltac not_bound :=
  cbv beta; apply (proj1 (bool_decide_eq_false _)); vm_compute; reflexivity.

(** *** The methods as the file has them *)

Lemma PAGTNBondFeaturizer_NameError (self : self_t) (mol : RDKitMol) :
  PAGTNBondFeaturizer module_globals self mol = Raise NameError.
Proof. reflexivity. Qed.

Lemma ring_feature_NameError (self : self_t) (ring_info : list (nat * bool)) :
  ring_feature module_globals self ring_info = Raise NameError.
Proof. by destruct ring_info. Qed.

Lemma bond_features_raises (self : self_t) (mol : RDKitMol)
    (path_atoms : list nat) (ring_info : list (nat * bool)) :
  is_Ok (bond_features module_globals self mol path_atoms ring_info) = false.
Proof.
  unfold bond_features.
  destruct (path_blocks self _); cbn [result_bind is_Ok]; [|reflexivity].
  destruct (position_feature self _); cbn [result_bind is_Ok]; [|reflexivity].
  by rewrite ring_feature_NameError.
Qed.

(** *** The path-length indicator *)

Lemma set_item_one_hot (n i : nat) :
  (i < n)%nat ->
  exists v,
    set_item (np_zeros n) i (float_of_int 1) = Ok v
    /\ length v = n
    /\ forall k, (k < n)%nat ->
         v !! k = Some (float_of_bool (bool_decide (k = i))).
Proof.
  intros Hi. unfold set_item, np_zeros. rewrite length_replicate.
  destruct (decide (i < n)%nat) as [_|Hn]; [|contradiction].
  eexists. split; [reflexivity|].
  split; [by rewrite length_insert, length_replicate|].
  intros k Hk. case_bool_decide as Hki.
  - subst k. rewrite list_lookup_insert_eq; [done|].
    by rewrite length_replicate.
  - rewrite list_lookup_insert_ne by congruence.
    by rewrite lookup_replicate_2.
Qed.

(** C7, as the code has it.  For a path of [n] atoms and maximum path
    length [L], the indicator is a vector of [L + 2] slots with exactly one
    slot set: slot [n] when [n + 1 <= L], slot [L + 1] otherwise. *)
Theorem position_feature_one_hot (self : self_t) (path_atoms : list nat) :
  exists v,
    position_feature self (length path_atoms) = Ok v
    /\ length v = max_length self + 2
    /\ forall k, (k < max_length self + 2)%nat ->
         v !! k
         = Some (float_of_bool
                   (bool_decide
                      (k = if decide (length path_atoms + 1 <= max_length self)%nat
                           then length path_atoms
                           else max_length self + 1))).
Proof.
  unfold position_feature.
  destruct (Nat.ltb_spec (max_length self) (length path_atoms + 1)) as [Hlt|Hge];
    destruct (decide (length path_atoms + 1 <= max_length self)%nat); try lia;
    apply set_item_one_hot; lia.
Qed.

(** *** The no-path branch and the no-ring branch, where they can run *)

Lemma np_zeros_length (n : nat) : length (np_zeros n) = n.
Proof. apply length_replicate. Qed.

Lemma np_zeros_all_zero (n : nat) : Forall (fun x => x = float_of_int 0) (np_zeros n).
Proof. apply Forall_replicate. reflexivity. Qed.

Lemma pair_step_no_path (globals : list string) (self : self_t)
    (mol : RDKitMol) (paths_dict : gmap (nat * nat) (list nat))
    (rings_dict : gmap (nat * nat) (list (nat * bool)))
    (i j : nat) (src dest : list nat) (feats : list (list pyfloat)) :
  paths_dict !! (i, j) = None ->
  pair_step globals self mol paths_dict rings_dict i (src, dest, feats) j
  = Ok (src ++ [i], dest ++ [j],
        feats ++ [np_zeros (7 * max_length self + 7)]).
Proof. intros Hnone. unfold pair_step. by rewrite Hnone. Qed.

Lemma ring_feature_no_ring (globals : list string) (self : self_t) :
  "one_hot_encoding" ∈ globals ->
  (forall l allowable_set,
     one_hot_encoding (a_ring_list l) allowable_set
     = map (fun _ => false) allowable_set) ->
  ring_feature globals self []
  = Ok (false :: map (fun _ => false) (RING_TYPES self)).
Proof.
  intros Hbound Hencode. unfold ring_feature.
  rewrite resolve_bound by exact Hbound. cbn [result_bind].
  by rewrite Hencode.
Qed.

(** *** The double loop, read as a table of rows *)

(** The feature vector of one pair, lines 342-346. *)
Definition pair_row (globals : list string) (self : self_t) (mol : RDKitMol)
    (paths_dict : gmap (nat * nat) (list nat))
    (rings_dict : gmap (nat * nat) (list (nat * bool)))
    (i j : nat) : result (list pyfloat) :=
  match paths_dict !! (i, j) with
  | None => Ok (np_zeros (7 * max_length self + 7))
  | Some path_atoms =>
      bond_features globals self mol path_atoms
        (default [] (rings_dict !! ordered_pair self i j))
  end.

Lemma pair_step_row (globals : list string) (self : self_t) (mol : RDKitMol)
    (paths_dict : gmap (nat * nat) (list nat))
    (rings_dict : gmap (nat * nat) (list (nat * bool)))
    (i j : nat) (src dest : list nat) (feats : list (list pyfloat)) :
  pair_step globals self mol paths_dict rings_dict i (src, dest, feats) j
  = (row <- pair_row globals self mol paths_dict rings_dict i j ;;
     Ok (src ++ [i], dest ++ [j], feats ++ [row]))%res.
Proof.
  unfold pair_step, pair_row. by destruct (paths_dict !! (i, j)).
Qed.

Lemma inner_loop_rows (globals : list string) (self : self_t) (mol : RDKitMol)
    (paths_dict : gmap (nat * nat) (list nat))
    (rings_dict : gmap (nat * nat) (list (nat * bool)))
    (i : nat) (js : list nat) (src dest : list nat)
    (feats : list (list pyfloat)) :
  foldM (pair_step globals self mol paths_dict rings_dict i) js
        (src, dest, feats)
  = (rows <- map_result (pair_row globals self mol paths_dict rings_dict i) js ;;
     Ok (src ++ map (fun _ => i) js, dest ++ js, feats ++ rows))%res.
Proof.
  revert src dest feats.
  induction js as [|j js IH]; intros src dest feats; cbn [foldM map_result map].
  - cbn [result_bind]. by rewrite !app_nil_r.
  - rewrite pair_step_row.
    destruct (pair_row globals self mol paths_dict rings_dict i j) as [row|e];
      cbn [result_bind]; [|reflexivity].
    rewrite IH.
    destruct (map_result _ js) as [rows|e]; cbn [result_bind]; [|reflexivity].
    by rewrite <- !app_assoc.
Qed.

Lemma outer_loop_rows (globals : list string) (self : self_t) (mol : RDKitMol)
    (paths_dict : gmap (nat * nat) (list nat))
    (rings_dict : gmap (nat * nat) (list (nat * bool)))
    (idxs js : list nat) (src dest : list nat) (feats : list (list pyfloat)) :
  foldM (fun state i =>
           foldM (pair_step globals self mol paths_dict rings_dict i) js state)
        idxs (src, dest, feats)
  = (table <- map_result
                (fun i =>
                   map_result
                     (pair_row globals self mol paths_dict rings_dict i) js)
                idxs ;;
     Ok (src ++ flat_map (fun i => map (fun _ => i) js) idxs,
         dest ++ flat_map (fun _ => js) idxs,
         feats ++ concat table))%res.
Proof.
  revert src dest feats.
  induction idxs as [|i idxs IH]; intros src dest feats;
    cbn [foldM map_result flat_map].
  - cbn [result_bind concat]. by rewrite !app_nil_r.
  - rewrite inner_loop_rows.
    destruct (map_result (pair_row _ _ _ _ _ i) js) as [rows|e];
      cbn [result_bind]; [|reflexivity].
    rewrite IH.
    destruct (map_result _ idxs) as [table|e]; cbn [result_bind concat];
      [|reflexivity].
    by rewrite <- !app_assoc.
Qed.

Lemma lookup_concat_uniform {A} (n : nat) (table : list (list A))
    (i j : nat) (row : list A) :
  Forall (fun r => length r = n) table ->
  table !! i = Some row -> (j < n)%nat ->
  concat table !! (i * n + j)%nat = row !! j.
Proof.
  revert i. induction table as [|r table IH]; intros i Hlen Hi Hj;
    [discriminate|].
  apply Forall_cons in Hlen as [Hr Hlen]. cbn [concat].
  destruct i as [|i]; cbn in Hi.
  - injection Hi as ->. rewrite lookup_app_l by lia. reflexivity.
  - rewrite lookup_app_r by lia.
    replace (S i * n + j - length r)%nat with (i * n + j)%nat by lia.
    by apply IH.
Qed.

Lemma lookup_flat_map_uniform {A B} (f : A -> list B) (n : nat) (l : list A)
    (i j : nat) (x : A) :
  (forall a, length (f a) = n) ->
  l !! i = Some x -> (j < n)%nat ->
  flat_map f l !! (i * n + j)%nat = f x !! j.
Proof.
  intros Hlen. revert i. induction l as [|a l IH]; intros i Hi Hj;
    [discriminate|].
  cbn [flat_map]. destruct i as [|i]; cbn in Hi.
  - injection Hi as ->. rewrite lookup_app_l by (rewrite Hlen; lia).
    reflexivity.
  - rewrite lookup_app_r by (rewrite Hlen; lia). rewrite Hlen.
    replace (S i * n + j - n)%nat with (i * n + j)%nat by lia.
    by apply IH.
Qed.

(** Whenever [PAGTNBondFeaturizer] returns, it returns one column and one
    row per ordered pair, in row-major order, and the row of a pair without
    a path is the zero vector of width 7 * max_length + 7. *)
Lemma PAGTNBondFeaturizer_no_path_row (globals : list string) (self : self_t)
    (mol : RDKitMol) (edge_index : list (list nat))
    (feats : list (list pyfloat)) (i j : nat) :
  PAGTNBondFeaturizer globals self mol = Ok (edge_index, feats) ->
  (i < GetNumAtoms mol)%nat -> (j < GetNumAtoms mol)%nat ->
  compute_all_pairs_shortest_path utils mol !! (i, j) = None ->
  exists src dest,
    edge_index = [src; dest]
    /\ src !! (i * GetNumAtoms mol + j)%nat = Some i
    /\ dest !! (i * GetNumAtoms mol + j)%nat = Some j
    /\ feats !! (i * GetNumAtoms mol + j)%nat
       = Some (np_zeros (7 * max_length self + 7)).
Proof.
  intros Hcall Hi Hj Hnone. unfold PAGTNBondFeaturizer in Hcall.
  destruct (resolve PAGTNBondFeaturizer_locals globals "utils" utils)
    as [u|e] eqn:Hu; cbn [result_bind] in Hcall; [|discriminate].
  assert (u = utils) as ->.
  { unfold resolve in Hu. by case_bool_decide; simplify_eq. }
  rewrite Hu in Hcall; cbn [result_bind] in Hcall.
  rewrite outer_loop_rows in Hcall.
  destruct (map_result _ (seq 0 (GetNumAtoms mol))) as [table|e] eqn:Htable;
    cbn [result_bind app] in Hcall; [|discriminate].
  injection Hcall as <- <-.
  apply map_result_Ok in Htable.
  assert (seq 0 (GetNumAtoms mol) !! i = Some i) as Hseq_i
    by (by apply lookup_seq_lt).
  assert (seq 0 (GetNumAtoms mol) !! j = Some j) as Hseq_j
    by (by apply lookup_seq_lt).
  destruct (Forall2_lookup_l _ _ _ _ _ Htable Hseq_i) as (rows & Hrows & Hrow).
  apply map_result_Ok in Hrow.
  destruct (Forall2_lookup_l _ _ _ _ _ Hrow Hseq_j) as (row & Hrowj & Hpair).
  unfold pair_row in Hpair. rewrite Hnone in Hpair. injection Hpair as <-.
  eexists _, _. split; [reflexivity|].
  split; [|split].
  - rewrite (lookup_flat_map_uniform _ (GetNumAtoms mol) _ i j i);
      [|intros; by rewrite length_map, length_seq|exact Hseq_i|exact Hj].
    change (map ?f ?l) with (f <$> l). by rewrite list_lookup_fmap, Hseq_j.
  - rewrite (lookup_flat_map_uniform _ (GetNumAtoms mol) _ i j i);
      [exact Hseq_j|intros; by rewrite length_seq|exact Hseq_i|exact Hj].
  - rewrite (lookup_concat_uniform (GetNumAtoms mol) table i j rows);
      [exact Hrowj| |exact Hrows|exact Hj].
    apply Forall_forall. intros r Hr.
    apply list_elem_of_lookup in Hr as (k & Hk).
    destruct (Forall2_lookup_r _ _ _ _ _ Htable Hk) as (k' & _ & Hk').
    apply map_result_Ok, Forall2_length in Hk'.
    by rewrite <- Hk', length_seq.
Qed.

(** *** The file as it is *)

(** C10. For every featurizer and every molecule, [_featurize] raises and
    returns no graph: [PAGTNAtomFeaturizer] declares one parameter and is
    called with two arguments.  Called with one argument it raises
    [NameError] at [self]; [PAGTNBondFeaturizer] raises [NameError] at
    [utils]; [bond_features] never returns, and its ring block raises
    [NameError] at [one_hot_encoding].  None of [self],
    [atom_explicit_valence_one_hot], [get_atom_implicit_valence_one_hot],
    [one_hot_encoding], [utils] is bound where it is read. *)
Theorem _featurize_always_raises (self : self_t) (mol : RDKitMol) :
  _featurize module_globals self mol = Raise TypeError
  /\ (forall o,
        (locals <- bind_params PAGTNAtomFeaturizer_params [o] ;;
         PAGTNAtomFeaturizer module_globals locals)%res = Raise NameError)
  /\ PAGTNBondFeaturizer module_globals self mol = Raise NameError
  /\ (forall path_atoms ring_info,
        is_Ok (bond_features module_globals self mol path_atoms ring_info)
        = false
        /\ ring_feature module_globals self ring_info = Raise NameError)
  /\ Forall (fun name =>
               name ∉ PAGTNAtomFeaturizer_locals ++ module_globals ++ builtins)
            ["self"; "atom_explicit_valence_one_hot";
             "get_atom_implicit_valence_one_hot"]
  /\ ("one_hot_encoding" ∉ bond_features_locals ++ module_globals ++ builtins)
  /\ ("utils" ∉ PAGTNBondFeaturizer_locals ++ module_globals ++ builtins).
Proof.
  split; [reflexivity|].
  split; [intros o; by vm_compute|].
  split; [apply PAGTNBondFeaturizer_NameError|].
  split.
  { intros path_atoms ring_info.
    split; [apply bond_features_raises | apply ring_feature_NameError]. }
  split.
  { repeat (apply Forall_cons_2; [not_bound|]). apply Forall_nil_2. }
  split; not_bound.
Qed.

(** *** The path blocks *)

Lemma map_result_ext {A B} (f g : A -> result B) (l : list A) :
  (forall x, x ∈ l -> f x = g x) -> map_result f l = map_result g l.
Proof.
  induction l as [|x l IH]; intros Hext; cbn [map_result]; [reflexivity|].
  rewrite (Hext x) by apply list_elem_of_here.
  rewrite IH; [reflexivity|].
  intros y Hy. apply Hext. by apply list_elem_of_further.
Qed.

Lemma path_bonds_of_length (mol : RDKitMol) (path_atoms : list nat) :
  length (path_bonds_of mol path_atoms) = (length path_atoms - 1)%nat.
Proof. unfold path_bonds_of. by rewrite length_map, length_seq. Qed.

Lemma path_bonds_of_lookup (mol : RDKitMol) (path_atoms : list nat) (k : nat) :
  (k < length path_atoms - 1)%nat ->
  path_bonds_of mol path_atoms !!! k
  = GetBondBetweenAtoms mol (path_atoms !!! k) (path_atoms !!! (k + 1)%nat).
Proof.
  intros Hk. apply list_lookup_total_correct. unfold path_bonds_of.
  change (map ?f ?l) with (f <$> l).
  by rewrite list_lookup_fmap, lookup_seq_lt.
Qed.

(** Only the first [max_length] bonds of a path are looked at: the blocks
    of a path are those of its first [max_length + 1] atoms, and a missing
    bond further along the path is never passed to the bond featurizer. *)
Theorem path_blocks_clipped (self : self_t) (mol : RDKitMol)
    (path_atoms : list nat) :
  path_blocks self (path_bonds_of mol path_atoms)
  = path_blocks self
      (path_bonds_of mol (take (max_length self + 1) path_atoms)).
Proof.
  unfold path_blocks. apply map_result_ext. intros k Hk.
  apply elem_of_seq in Hk as [_ Hk]. cbn in Hk.
  rewrite !path_bonds_of_length, length_take.
  destruct (Nat.ltb_spec k (length path_atoms - 1)) as [Hlt|Hge].
  - match goal with |- context [Nat.ltb k ?m] =>
      destruct (Nat.ltb_spec k m) as [_|Hno]; [|lia]
    end.
    rewrite !path_bonds_of_lookup by (rewrite ?length_take; lia).
    by rewrite !lookup_total_take_lt by lia.
  - match goal with |- context [Nat.ltb k ?m] =>
      destruct (Nat.ltb_spec k m) as [Hno|_]; [lia|reflexivity]
    end.
Qed.

(** Whenever the path blocks are built, there are [max_length] of them,
    each of six numbers when the bond featurizer gives six; slot k holds
    the features of the bond between path atoms k and k+1, and the slots
    from the end of the path on are zero. *)
Theorem path_blocks_shape (self : self_t) (mol : RDKitMol)
    (path_atoms : list nat) (blocks : list (list pyfloat)) :
  (forall bond, length (bond_featurizer self bond) = 6) ->
  path_blocks self (path_bonds_of mol path_atoms) = Ok blocks ->
  length blocks = max_length self
  /\ Forall (fun block => length block = 6) blocks
  /\ forall k, (k < max_length self)%nat ->
       if decide (k < length path_atoms - 1)%nat then
         exists bond,
           GetBondBetweenAtoms mol (path_atoms !!! k)
                                   (path_atoms !!! (k + 1)%nat) = Some bond
           /\ blocks !! k
              = Some (map float_of_bool (bond_featurizer self bond))
       else blocks !! k = Some (replicate 6 (float_of_int 0)).
Proof.
  intros Hwidth Hblocks. unfold path_blocks in Hblocks.
  apply map_result_Ok in Hblocks.
  pose proof (Forall2_length _ _ _ Hblocks) as Hlen.
  rewrite length_seq in Hlen.
  assert (forall k, (k < max_length self)%nat ->
            if decide (k < length path_atoms - 1)%nat then
              exists bond,
                GetBondBetweenAtoms mol (path_atoms !!! k)
                                        (path_atoms !!! (k + 1)%nat) = Some bond
                /\ blocks !! k
                   = Some (map float_of_bool (bond_featurizer self bond))
            else blocks !! k = Some (replicate 6 (float_of_int 0)))
    as Hslots.
  { intros k Hk.
    destruct (Forall2_lookup_l _ _ _ k k Hblocks) as (block & Hblock & Hrow);
      [by apply lookup_seq_lt|].
    rewrite path_bonds_of_length in Hrow.
    destruct (decide (k < length path_atoms - 1)%nat) as [Hlt|Hge].
    - destruct (Nat.ltb_spec k (length path_atoms - 1)) as [_|Hno]; [|lia].
      rewrite path_bonds_of_lookup in Hrow by exact Hlt.
      destruct (GetBondBetweenAtoms mol _ _) as [bond|];
        cbn [call_bond_featurizer] in Hrow; [|discriminate].
      injection Hrow as <-. by exists bond.
    - destruct (Nat.ltb_spec k (length path_atoms - 1)) as [Hno|_]; [lia|].
      by injection Hrow as <-. }
  split; [by rewrite <- Hlen|]. split; [|exact Hslots].
  apply Forall_forall. intros block Hin.
  apply list_elem_of_lookup in Hin as (k & Hk).
  assert (k < max_length self)%nat as Hlt
    by (rewrite Hlen; by eapply lookup_lt_Some).
  specialize (Hslots k Hlt). destruct (decide _).
  - destruct Hslots as (bond & _ & Hb). rewrite Hk in Hb.
    injection Hb as ->. by rewrite length_map.
  - rewrite Hk in Hslots. injection Hslots as ->. reflexivity.
Qed.

(** *** The whole pair vector *)

Lemma set_item_length (a r : list pyfloat) (i : nat) (v : pyfloat) :
  set_item a i v = Ok r -> length r = length a.
Proof.
  unfold set_item. destruct (decide _); [|discriminate].
  intros [= <-]. apply length_insert.
Qed.

Lemma np_any_axis0_fold_length (n : nat) (rows : list (list bool))
    (acc : list bool) :
  length acc = n -> Forall (fun r => length r = n) rows ->
  length (fold_left (zip_with orb) rows acc) = n.
Proof.
  revert acc. induction rows as [|r rows IH]; intros acc Hacc Hrows;
    cbn [fold_left]; [exact Hacc|].
  apply Forall_cons in Hrows as [Hr Hrows].
  apply IH; [|exact Hrows]. rewrite length_zip_with. lia.
Qed.

Lemma ring_feature_length (globals : list string) (self : self_t)
    (ring_info : list (nat * bool)) (rfeat : list bool) :
  (forall x allowable_set,
     length (one_hot_encoding x allowable_set) = length allowable_set) ->
  ring_feature globals self ring_info = Ok rfeat ->
  length rfeat = S (length (RING_TYPES self)).
Proof.
  intros Hencode. unfold ring_feature.
  destruct (resolve bond_features_locals globals "one_hot_encoding"
              one_hot_encoding) as [encode|e] eqn:Hres;
    [|by destruct ring_info].
  assert (encode = one_hot_encoding) as ->.
  { unfold resolve in Hres. by case_bool_decide; simplify_eq. }
  destruct ring_info as [|r ring_info]; cbn [result_bind map np_any_axis0];
    intros [= <-]; cbn [length]; f_equal; [apply Hencode|].
  apply np_any_axis0_fold_length; [apply Hencode|].
  apply Forall_forall. intros row Hrow.
  apply list_elem_of_fmap in Hrow as (r' & -> & _). apply Hencode.
Qed.

Lemma path_blocks_sizes (self : self_t) (path_bonds : list (option RDKitBond))
    (blocks : list (list pyfloat)) :
  (forall bond, length (bond_featurizer self bond) = 6) ->
  path_blocks self path_bonds = Ok blocks ->
  length (concat blocks) = (6 * max_length self)%nat.
Proof.
  intros Hwidth Hblocks. unfold path_blocks in Hblocks.
  apply map_result_Ok in Hblocks.
  pose proof (Forall2_length _ _ _ Hblocks) as Hlen.
  rewrite length_seq in Hlen. rewrite Hlen. clear Hlen.
  induction Hblocks as [|k block ks blocks Hrow _ IH]; [reflexivity|].
  cbn [concat length]. rewrite length_app, IH.
  assert (length block = 6) as ->; [|lia].
  destruct (Nat.ltb k (length path_bonds)); [|by injection Hrow as <-].
  destruct (path_bonds !!! k) as [bond|]; cbn [call_bond_featurizer] in Hrow;
    [|discriminate].
  injection Hrow as <-. by rewrite length_map.
Qed.

(** Whenever [bond_features] returns, its vector is the [max_length] path
    blocks, then the path-length indicator, then the ring block; with six
    numbers per bond, an encoder that gives one entry per category and the
    four ring types, its width is 7 * max_length + 7, the width of the zero
    vector of a pair without a path. *)
Theorem bond_features_layout (globals : list string) (self : self_t)
    (mol : RDKitMol) (path_atoms : list nat) (ring_info : list (nat * bool))
    (vec : list pyfloat) :
  (forall bond, length (bond_featurizer self bond) = 6) ->
  (forall x allowable_set,
     length (one_hot_encoding x allowable_set) = length allowable_set) ->
  length (RING_TYPES self) = 4 ->
  bond_features globals self mol path_atoms ring_info = Ok vec ->
  (exists blocks position rfeat,
     path_blocks self (path_bonds_of mol path_atoms) = Ok blocks
     /\ position_feature self (length path_atoms) = Ok position
     /\ ring_feature globals self ring_info = Ok rfeat
     /\ vec = concat blocks ++ position ++ map float_of_bool rfeat
     /\ length (concat blocks) = (6 * max_length self)%nat
     /\ length position = (max_length self + 2)%nat
     /\ length rfeat = 5)
  /\ length vec = length (np_zeros (7 * max_length self + 7)).
Proof.
  intros Hwidth Hencode Hrings Hcall. unfold bond_features in Hcall.
  destruct (path_blocks self _) as [blocks|e] eqn:Hblocks;
    cbn [result_bind] in Hcall; [|discriminate].
  destruct (position_feature self _) as [position|e] eqn:Hpos;
    cbn [result_bind] in Hcall; [|discriminate].
  destruct (ring_feature globals self ring_info) as [rfeat|e] eqn:Hring;
    cbn [result_bind] in Hcall; [|discriminate].
  injection Hcall as <-.
  pose proof (path_blocks_sizes _ _ _ Hwidth Hblocks) as Hb.
  assert (length position = (max_length self + 2)%nat) as Hp.
  { unfold position_feature in Hpos. apply set_item_length in Hpos.
    by rewrite Hpos, np_zeros_length. }
  pose proof (ring_feature_length _ _ _ _ Hencode Hring) as Hr.
  rewrite Hrings in Hr.
  assert (concat ((blocks ++ [position]) ++ [map float_of_bool rfeat])
          = concat blocks ++ position ++ map float_of_bool rfeat) as ->.
  { rewrite !concat_app. cbn [concat]. by rewrite !app_nil_r, <- app_assoc. }
  split.
  - exists blocks, position, rfeat. done.
  - rewrite !length_app, length_map, Hb, Hp, Hr, np_zeros_length. lia.
Qed.

(** *** The ring block of a pair that shares rings *)

Lemma zip_with_orb_maps {A} (f g : A -> bool) (l : list A) :
  zip_with orb (map f l) (map g l) = map (fun t => f t || g t) l.
Proof. induction l as [|t l IH]; cbn; [reflexivity | by rewrite IH]. Qed.

Lemma np_any_axis0_fold_member (categories rings : list (nat * bool))
    (seen : nat * bool -> bool) :
  fold_left (zip_with orb)
    (map (fun r => map (fun t => bool_decide (r = t)) categories) rings)
    (map seen categories)
  = map (fun t => seen t || bool_decide (t ∈ rings)) categories.
Proof.
  revert seen. induction rings as [|r rings IH]; intros seen; cbn [map fold_left].
  - apply map_ext. intros t.
    rewrite bool_decide_eq_false_2 by apply not_elem_of_nil.
    by rewrite orb_false_r.
  - rewrite zip_with_orb_maps, IH. apply map_ext. intros t.
    rewrite <- orb_assoc. f_equal.
    rewrite <- bool_decide_or. apply bool_decide_ext.
    rewrite elem_of_cons. split; intros [H|H]; auto.
Qed.

(** For a pair that shares rings, with [one_hot_encoding] bound to an
    encoder that compares a ring with each category, the ring block is the
    flag [True] followed, for each ring type, by whether one of the shared
    rings has that type: several entries are set when the rings differ in
    type. *)
Theorem ring_feature_shared_rings (globals : list string) (self : self_t)
    (ring_info : list (nat * bool)) :
  "one_hot_encoding" ∈ globals ->
  (forall r allowable_set,
     one_hot_encoding (a_ring r) allowable_set
     = map (fun t => bool_decide (r = t)) allowable_set) ->
  ring_info <> [] ->
  ring_feature globals self ring_info
  = Ok (true :: map (fun t => bool_decide (t ∈ ring_info)) (RING_TYPES self)).
Proof.
  intros Hbound Hencode Hrings. unfold ring_feature.
  destruct ring_info as [|r ring_info]; [done|].
  rewrite resolve_bound by exact Hbound. cbn [result_bind]. do 2 f_equal.
  cbn [map np_any_axis0]. rewrite Hencode.
  rewrite (map_ext _ (fun r => map (fun t => bool_decide (r = t))
                                   (RING_TYPES self)))
    by (intros; apply Hencode).
  rewrite np_any_axis0_fold_member. apply map_ext. intros t.
  rewrite <- bool_decide_or. apply bool_decide_ext.
  rewrite elem_of_cons. split; intros [H|H]; auto.
Qed.

(** *** The table of all pairs *)

Lemma length_flat_map_uniform {A B} (f : A -> list B) (n : nat) (l : list A) :
  (forall a, length (f a) = n) ->
  length (flat_map f l) = (length l * n)%nat.
Proof.
  intros Hlen. induction l as [|a l IH]; cbn [flat_map length];
    [reflexivity|].
  rewrite length_app, Hlen, IH. lia.
Qed.

Lemma length_concat_uniform {A} (n : nat) (table : list (list A)) :
  Forall (fun r => length r = n) table ->
  length (concat table) = (length table * n)%nat.
Proof.
  induction 1 as [|r table Hr _ IH]; cbn [concat length]; [reflexivity|].
  rewrite length_app, Hr, IH. lia.
Qed.

(** Whenever [PAGTNBondFeaturizer] returns for a molecule of n atoms, the
    edge index has two rows of n * n entries and there are n * n feature
    rows; column i * n + j is the pair (i, j), self-pairs included, and
    row i * n + j is the vector of that pair: the zero vector when the
    pair has no path, the value of [bond_features] on its path and shared
    rings otherwise. *)
Theorem PAGTNBondFeaturizer_all_pairs (globals : list string) (self : self_t)
    (mol : RDKitMol) (edge_index : list (list nat))
    (feats : list (list pyfloat)) :
  PAGTNBondFeaturizer globals self mol = Ok (edge_index, feats) ->
  exists src dest,
    edge_index = [src; dest]
    /\ length src = (GetNumAtoms mol * GetNumAtoms mol)%nat
    /\ length dest = (GetNumAtoms mol * GetNumAtoms mol)%nat
    /\ length feats = (GetNumAtoms mol * GetNumAtoms mol)%nat
    /\ forall i j,
         (i < GetNumAtoms mol)%nat -> (j < GetNumAtoms mol)%nat ->
         src !! (i * GetNumAtoms mol + j)%nat = Some i
         /\ dest !! (i * GetNumAtoms mol + j)%nat = Some j
         /\ exists row,
              feats !! (i * GetNumAtoms mol + j)%nat = Some row
              /\ Ok row
                 = match compute_all_pairs_shortest_path utils mol !! (i, j)
                   with
                   | None => Ok (np_zeros (7 * max_length self + 7))
                   | Some path_atoms =>
                       bond_features globals self mol path_atoms
                         (default []
                            (compute_pairwise_ring_info utils mol
                               !! ordered_pair self i j))
                   end.
Proof.
  intros Hcall. unfold PAGTNBondFeaturizer in Hcall.
  destruct (resolve PAGTNBondFeaturizer_locals globals "utils" utils)
    as [u|e] eqn:Hu; cbn [result_bind] in Hcall; [|discriminate].
  assert (u = utils) as ->.
  { unfold resolve in Hu. by case_bool_decide; simplify_eq. }
  rewrite Hu in Hcall; cbn [result_bind] in Hcall.
  rewrite outer_loop_rows in Hcall.
  destruct (map_result _ (seq 0 (GetNumAtoms mol))) as [table|e] eqn:Htable;
    cbn [result_bind app] in Hcall; [|discriminate].
  injection Hcall as <- <-.
  apply map_result_Ok in Htable.
  assert (Forall (fun r => length r = GetNumAtoms mol) table) as Huniform.
  { apply Forall_forall. intros r Hr.
    apply list_elem_of_lookup in Hr as (k & Hk).
    destruct (Forall2_lookup_r _ _ _ _ _ Htable Hk) as (k' & _ & Hk').
    apply map_result_Ok, Forall2_length in Hk'.
    by rewrite <- Hk', length_seq. }
  assert (length table = GetNumAtoms mol) as Hheight.
  { apply Forall2_length in Htable. by rewrite <- Htable, length_seq. }
  eexists _, _. split; [reflexivity|].
  split; [|split; [|split]].
  - rewrite (length_flat_map_uniform _ (GetNumAtoms mol));
      [by rewrite length_seq|intros; by rewrite length_map, length_seq].
  - rewrite (length_flat_map_uniform _ (GetNumAtoms mol));
      [by rewrite length_seq|intros; by rewrite length_seq].
  - by rewrite (length_concat_uniform (GetNumAtoms mol)), Hheight.
  - intros i j Hi Hj.
    assert (seq 0 (GetNumAtoms mol) !! i = Some i) as Hseq_i
      by (by apply lookup_seq_lt).
    assert (seq 0 (GetNumAtoms mol) !! j = Some j) as Hseq_j
      by (by apply lookup_seq_lt).
    destruct (Forall2_lookup_l _ _ _ _ _ Htable Hseq_i)
      as (rows & Hrows & Hrow).
    apply map_result_Ok in Hrow.
    destruct (Forall2_lookup_l _ _ _ _ _ Hrow Hseq_j) as (row & Hrowj & Hpair).
    split; [|split].
    + rewrite (lookup_flat_map_uniform _ (GetNumAtoms mol) _ i j i);
        [|intros; by rewrite length_map, length_seq|exact Hseq_i|exact Hj].
      change (map ?f ?l) with (f <$> l). by rewrite list_lookup_fmap, Hseq_j.
    + rewrite (lookup_flat_map_uniform _ (GetNumAtoms mol) _ i j i);
        [exact Hseq_j|intros; by rewrite length_seq|exact Hseq_i|exact Hj].
    + exists row. split; [|by rewrite <- Hpair].
      by rewrite (lookup_concat_uniform (GetNumAtoms mol) table i j rows).
Qed.

(** The indicator has [max_length + 2] slots and exactly one of them is
    set: the slot of its atom count for a path of fewer than [max_length]
    atoms, the last slot for every longer path.  So slot [max_length] is
    set for no path. *)
Theorem position_feature_slot_never_set (self : self_t) (path_atoms : list nat) :
  exists v,
    position_feature self (length path_atoms) = Ok v
    /\ length v = (max_length self + 2)%nat
    /\ v !! max_length self = Some (float_of_int 0)
    /\ ((length path_atoms < max_length self)%nat ->
        forall k, (k < max_length self + 2)%nat ->
          v !! k = Some (float_of_bool (bool_decide (k = length path_atoms))))
    /\ ((max_length self <= length path_atoms)%nat ->
        forall k, (k < max_length self + 2)%nat ->
          v !! k
          = Some (float_of_bool (bool_decide (k = (max_length self + 1)%nat)))).
Proof.
  unfold position_feature.
  destruct (Nat.ltb_spec (max_length self) (length path_atoms + 1)) as [Hlt|Hge].
  - destruct (set_item_one_hot (max_length self + 2) (max_length self + 1))
      as (v & -> & Hlen & Hslots); [lia|].
    exists v. split; [reflexivity|]. split; [exact Hlen|]. split; [|split].
    + rewrite Hslots by lia. rewrite bool_decide_eq_false_2 by lia. reflexivity.
    + lia.
    + intros _ k Hk. by apply Hslots.
  - destruct (set_item_one_hot (max_length self + 2) (length path_atoms))
      as (v & -> & Hlen & Hslots); [lia|].
    exists v. split; [reflexivity|]. split; [exact Hlen|]. split; [|split].
    + rewrite Hslots by lia. rewrite bool_decide_eq_false_2 by lia. reflexivity.
    + intros _ k Hk. by apply Hslots.
    + lia.
Qed.

(** *** Calls and constructor *)

(** Binding the names the file leaves unbound does not make [_featurize]
    return: in every module namespace the call of [PAGTNAtomFeaturizer]
    passes two arguments to its one parameter and raises [TypeError]. *)
Theorem _featurize_TypeError_in_every_namespace (globals : list string)
    (self : self_t) (mol : RDKitMol) :
  _featurize globals self mol = Raise TypeError.
Proof. reflexivity. Qed.

(** [__init__] raises [ImportError] exactly when the DGL-LifeSci imports
    fail; the instance it returns otherwise orders a pair of atom indices,
    smaller index first, so the rings of (i, j) and of (j, i) are looked up
    under the same key. *)
Theorem __init___ordered_pair (max_length_arg : nat) :
  match __init__ max_length_arg with
  | Ok self =>
      dgllife_importable = true
      /\ forall a b,
           ordered_pair self a b = (a `min` b, a `max` b)
           /\ ordered_pair self a b = ordered_pair self b a
  | Raise e => e = ImportError /\ dgllife_importable = false
  end.
Proof.
  unfold __init__. destruct dgllife_importable; [|done].
  split; [reflexivity|]. intros a b. cbn [ordered_pair].
  destruct (Nat.ltb_spec a b), (Nat.ltb_spec b a); split; f_equal; lia.
Qed.

End Featurizer.

(** *** The featurizer with DGL-LifeSci's encoders *)

(** DGL-LifeSci's [one_hot_encoding(x, allowable_set)] compares [x] with
    every category; a list equals no ring type. *)
Definition dgllife_one_hot_encoding (x : ring_query)
    (allowable_set : list (nat * bool)) : list bool :=
  map (fun s =>
         match x with
         | a_ring r => bool_decide (r = s)
         | a_ring_list _ => false
         end)
      allowable_set.

(** [ConcatFeaturizer([bond_type_one_hot, bond_is_conjugated,
    bond_is_in_ring])]: six booleans for a bond. *)
Definition dgllife_bond_featurizer (bond : RDKitBond) : list bool :=
  map (fun t => bool_decide (GetBondType bond = t))
      ["SINGLE"; "DOUBLE"; "TRIPLE"; "AROMATIC"]
  ++ [GetIsConjugated bond] ++ [IsInRing bond].

(** The instance [PAGTNFeaturizer(max_length=3)] leaves behind. *)
Definition featurizer_3 : result self_t :=
  __init__ true dgllife_bond_featurizer 3.

(** [[Na+].[Cl-]]: two atoms and no bond, so no path joins any pair. *)
Definition sodium_chloride : RDKitMol :=
  mkMol [mkAtom 0 "Na" 1 "S" false 0 0 ∅; mkAtom 1 "Cl" (-1) "SP3" false 0 0 ∅]
        [].

(** [CC]: two carbons joined by a single bond outside any ring. *)
Definition ethane : RDKitMol :=
  mkMol [mkAtom 0 "C" 0 "SP3" false 4 3 ∅; mkAtom 1 "C" 0 "SP3" false 4 3 ∅]
        [mkBond 0 1 "SINGLE" false false "STEREONONE"].

(** A [utils] module for molecules without paths and rings. *)
Definition utils_no_paths : utils_t := mkUtils (fun _ => ∅) (fun _ => ∅).

(** The module namespace with the two missing imports added. *)
Definition repaired_globals : list string :=
  "utils" :: "one_hot_encoding" :: module_globals.

(** C6, at [PAGTNFeaturizer(max_length=3)].  Whatever [max_length] the
    constructor is given, the instance has [max_length] 5: the bound that
    clips paths and sizes the per-pair vector is 5, the zero vector has 42
    entries and not 7*3+7 = 28. *)
Theorem max_length_argument_ignored :
  (forall m, exists self,
      __init__ true dgllife_bond_featurizer m = Ok self
      /\ max_length self = 5)
  /\ exists self,
       featurizer_3 = Ok self
       /\ max_length self = 5
       /\ max_length self <> 3
       /\ length (np_zeros (7 * max_length self + 7)) = 42
       /\ length (np_zeros (7 * max_length self + 7)) <> 7 * 3 + 7.
Proof.
  split.
  - intros m. eexists. split; reflexivity.
  - eexists. split; [reflexivity|]. cbn [max_length].
    repeat split; try reflexivity; intros H; discriminate H.
Qed.

(** C5, at sodium chloride.  In the file's namespace the call raises
    [NameError] before it looks at any pair; with [utils] bound, each of
    the four pairs, none of which has a path, gets the zero vector of
    width 7*5+7. *)
Theorem no_path_pairs_sodium_chloride :
  match featurizer_3 with
  | Ok self =>
      PAGTNBondFeaturizer dgllife_one_hot_encoding utils_no_paths
        module_globals self sodium_chloride = Raise NameError
      /\ PAGTNBondFeaturizer dgllife_one_hot_encoding utils_no_paths
           repaired_globals self sodium_chloride
         = Ok ([[0; 0; 1; 1]; [0; 1; 0; 1]], replicate 4 (np_zeros 42))
  | Raise _ => False
  end.
Proof. cbn [featurizer_3 __init__]. split; [reflexivity | by vm_compute]. Qed.

(** C8, at the bonded pair of ethane, which shares no ring.  In the file's
    namespace the ring block raises [NameError] at [one_hot_encoding], and
    so does [bond_features]; with the name bound the block is a [False]
    flag followed by one [False] per ring type. *)
Theorem no_ring_block_ethane :
  match featurizer_3 with
  | Ok self =>
      ring_feature dgllife_one_hot_encoding module_globals self []
      = Raise NameError
      /\ bond_features dgllife_one_hot_encoding module_globals self
           ethane [0; 1] [] = Raise NameError
      /\ ring_feature dgllife_one_hot_encoding repaired_globals self []
         = Ok [false; false; false; false; false]
  | Raise _ => False
  end.
Proof.
  cbn [featurizer_3 __init__].
  split; [reflexivity|]. split; [by vm_compute | by vm_compute].
Qed.

(** The slot the indicator sets is not [min(path length, L+1)], whether a
    path's length counts its atoms or its bonds: for a path of five atoms
    and L = 5 the slot is 6. *)
Lemma position_slot_is_not_min :
  ~ (forall self (path_atoms : list nat) v,
       position_feature self (length path_atoms) = Ok v ->
       v !! (length path_atoms `min` (max_length self + 1))
       = Some (float_of_int 1))
  /\ ~ (forall self (path_atoms : list nat) v,
          position_feature self (length path_atoms) = Ok v ->
          v !! ((length path_atoms - 1) `min` (max_length self + 1))
          = Some (float_of_int 1)).
Proof.
  split; intros H;
    specialize
      (H (mkSelf [] [] (fun a b => (a, b)) dgllife_bond_featurizer 5)
         [0; 1; 2; 3; 4] _ eq_refl);
    vm_compute in H; discriminate H.
Qed.

Example position_feature_five_atoms :
  position_feature (mkSelf [] [] (fun a b => (a, b)) dgllife_bond_featurizer 5) 5
  = Ok (map float_of_int [0; 0; 0; 0; 0; 0; 1])%Z.
Proof. reflexivity. Qed.

Example bond_features_ethane_repaired :
  match featurizer_3 with
  | Ok self =>
      bond_features dgllife_one_hot_encoding repaired_globals self
        ethane [0; 1] []
      = Ok (map float_of_bool
              ([true; false; false; false; false; false]
               ++ replicate 24 false
               ++ [false; false; true; false; false; false; false]
               ++ [false; false; false; false; false]))
  | Raise _ => False
  end.
Proof. by vm_compute. Qed.


(** *** The further theorems at ethane and sodium chloride *)

(** A pair that shares a six-membered aromatic ring and a five-membered
    aliphatic one. *)
Definition two_shared_rings : list (nat * bool) := [(6, true); (5, false)].

(** The five path blocks of the bonded pair of ethane. *)
Lemma path_blocks_shape_witness :
  match featurizer_3 with
  | Ok self =>
      exists blocks,
        path_blocks self (path_bonds_of ethane [0; 1]) = Ok blocks
        /\ length blocks = 5
        /\ Forall (fun block => length block = 6) blocks
        /\ blocks !! 4 = Some (replicate 6 (float_of_int 0))
  | Raise _ => False
  end.
Proof.
  cbn [featurizer_3 __init__].
  match goal with |- context [path_blocks ?s _] =>
    pose proof (path_blocks_shape s ethane [0; 1] _
                  (fun bond => eq_refl) eq_refl) as (Hlen & Hwidth & Hslots)
  end.
  eexists. split; [reflexivity|].
  split; [exact Hlen|]. split; [exact Hwidth|].
  exact (Hslots 4 ltac:(cbn; lia)).
Defined.

(** The pair vector of the bonded pair of ethane, with the two names
    bound: 42 numbers. *)
Lemma bond_features_layout_witness :
  match featurizer_3 with
  | Ok self =>
      exists vec,
        bond_features dgllife_one_hot_encoding repaired_globals self
          ethane [0; 1] [] = Ok vec
        /\ length vec = 42
  | Raise _ => False
  end.
Proof.
  cbn [featurizer_3 __init__].
  match goal with |- context [bond_features _ _ ?s _ _ _] =>
    pose proof (proj2 (bond_features_layout dgllife_one_hot_encoding
                         repaired_globals s ethane [0; 1] [] _
                         (fun bond => eq_refl)
                         (fun x allowable_set => length_map _ allowable_set)
                         eq_refl eq_refl)) as Hwidth
  end.
  eexists. split; [reflexivity | exact Hwidth].
Defined.

(** Two shared rings of different types set two entries of the ring
    block. *)
Lemma ring_feature_shared_rings_witness :
  match featurizer_3 with
  | Ok self =>
      "one_hot_encoding" ∈ repaired_globals
      /\ two_shared_rings <> []
      /\ ring_feature dgllife_one_hot_encoding repaired_globals self
           two_shared_rings
         = Ok [true; true; false; false; true]
  | Raise _ => False
  end.
Proof.
  cbn [featurizer_3 __init__].
  assert ("one_hot_encoding" ∈ repaired_globals) as Hbound
    by (apply (bool_decide_unpack _); vm_compute; exact I).
  assert (two_shared_rings <> []) as Hrings by discriminate.
  split; [exact Hbound|]. split; [exact Hrings|].
  match goal with |- context [ring_feature _ _ ?s _] =>
    rewrite (ring_feature_shared_rings dgllife_one_hot_encoding
               repaired_globals s two_shared_rings Hbound
               (fun r allowable_set => eq_refl) Hrings)
  end.
  vm_compute. reflexivity.
Defined.

(** The four ordered pairs of sodium chloride, with [utils] bound. *)
Lemma PAGTNBondFeaturizer_all_pairs_witness :
  match featurizer_3 with
  | Ok self =>
      exists edge_index feats,
        PAGTNBondFeaturizer dgllife_one_hot_encoding utils_no_paths
          repaired_globals self sodium_chloride = Ok (edge_index, feats)
        /\ length feats = 4
        /\ exists src dest,
             edge_index = [src; dest]
             /\ src !! 3 = Some 1 /\ dest !! 3 = Some 1
  | Raise _ => False
  end.
Proof.
  cbn [featurizer_3 __init__].
  match goal with |- context [PAGTNBondFeaturizer _ _ _ ?s _] =>
    pose proof (PAGTNBondFeaturizer_all_pairs dgllife_one_hot_encoding
                  utils_no_paths repaired_globals s
                  sodium_chloride _ _ eq_refl)
      as (src & dest & Hindex & _ & _ & Hfeats & Hpairs)
  end.
  eexists _, _. split; [reflexivity|].
  split; [exact Hfeats|].
  exists src, dest. split; [exact Hindex|].
  destruct (Hpairs 1 1 ltac:(cbn; lia) ltac:(cbn; lia)) as (Hs & Hd & _).
  split; [exact Hs | exact Hd].
Defined.

End PAGTNFeaturizer.
